(** * research-hub-sync: Contentful to ElasticSearch sync scripts

    A shallow embedding of the command-line scripts of the repository:
    the index-management-aware script (with the elasticsearch client),
    [src/index.js] and the first script of [src/research-hub-sync.js].

    The scripts are sequential glue between two remote services.  A run
    is modelled as a computation over an abstract world [W] (the state
    of the remote services): every remote call is answered by a handler
    of the [Services] record, which settles the call's promise and may
    change the world.  A computation also produces the trace of what the
    script did (remote calls issued and settled, console output) and
    ends with a value, a thrown exception or a [process.exit]. *)

From stdpp Require Import base strings list gmap.

Local Open Scope string_scope.
Local Open Scope list_scope.
Local Open Scope nat_scope.

(** ** JavaScript values the scripts handle *)

(** Thrown values and promise rejection reasons: error objects with a
    [message]. *)
Inductive Exn :=
| Error (message : string)
| TypeError (message : string).

Definition message (e : Exn) : string :=
  match e with Error m => m | TypeError m => m end.

(** A settled promise. *)
Inductive Settled (A : Type) :=
| Resolved (a : A)
| Rejected (e : Exn).
Arguments Resolved {A} a.
Arguments Rejected {A} e.

Definition is_resolved {A} (r : Settled A) : bool :=
  match r with Resolved _ => true | Rejected _ => false end.

(** A Contentful entry: [item.sys.id], [item.fields.name]. *)
Record Sys := { id : string }.
Record Entry := { sys : Sys; fields : list (string * string) }.

Definition fields_name (e : Entry) : option string :=
  (λ p, snd (snd p)) <$> list_find (λ kv, fst kv = "name") (fields e).

(** The resolved value of [getEntries]. *)
Record Response := { items : list Entry }.

(** The resolved value of [indices.delete] and [indices.create]. *)
Record Ack := { acknowledged : bool }.

(** The resolved value of [cluster.health]. *)
Record Health := { status : string }.

(** Truthiness of a string and of a possibly undefined string. *)
Definition truthy (s : string) : bool := negb (String.eqb s "").

Definition truthy_opt (o : option string) : bool :=
  match o with Some s => truthy s | None => false end.

(** [a || b] on a possibly undefined string [a]. *)
Definition or_else (a : option string) (b : string) : string :=
  match a with
  | Some s => if truthy s then s else b
  | None => b
  end.

(** ** Remote calls, console output and traces *)

Inductive Call :=
| cluster_health (timeout : string)
| getEntries (skip limit : nat) (content_type : string)
| indices_exists (index : string)
| indices_delete (index : string)
| indices_create (index : string)
| create (index type id : string) (body : Entry)
| request_get (uri : string)
| request_put (uri : string) (body : option Entry).

(** The lines the scripts print with [console.log]; a [bool] is the
    good/bad glyph of the line. *)
Inductive Msg :=
| Banner
| InfoTable (index_name content_type environment : string)
| EnvVars (ok : bool)
| ScriptParams (ok : bool)
| Connect (ok : bool)
| HealthObject (h : Health)
| Aborting
| Retrieve (ok : bool)
| Found (ok : bool) (n : nat)
| SummaryTable (rows : list (string * option string))
| ExistingIndex (found : bool)
| ResetDeleting
| Deleted (ok : bool)
| Created (ok : bool)
| NoCreateIndex
| Posted (ok : bool) (posted failed : nat)
| Red (text : string)
| Finished.

Inductive Event :=
| Issue (c : Call)
| Settle (c : Call) (ok : bool)
| Log (m : Msg)
| LogError (e : Exn)
| OutputHelp.

(** ** What the scripts read: parsed command line and environment *)

(** The [program] object of commander after [parse]. *)
Record Program := {
  args : list string;
  verbose : bool;
  summary : bool;
  reset : bool;
  createIndex : bool;
  env : option string;
  index : option string
}.

(** [process.env] and [process.argv]. *)
Module process.
Record env := {
  CONTENTFUL_SPACE_ID : option string;
  CONTENTFUL_ACCESS_TOKEN : option string;
  ELASTICSEARCH_HOST : option string;
  ELASTICSEARCH_PORT : option string;
  ELASTICSEARCH_URL : option string
}.
Definition argv := list string.
End process.

(** ** The libraries and the services behind them *)

Record Services (W : Type) := {
  (** [changeCase.paramCase] *)
  paramCase : string → string;
  (** [contentful.createClient]: [Some e] when the constructor throws *)
  createClient : option string → string → option string → option Exn;
  (** [new elasticsearch.Client] *)
  newClient : string → string → option Exn;
  on_cluster_health : string → W → W * Settled Health;
  on_getEntries : nat → nat → string → W → W * Settled Response;
  on_indices_exists : string → W → W * Settled bool;
  on_indices_delete : string → W → W * Settled Ack;
  on_indices_create : string → W → W * Settled Ack;
  on_create : string → string → string → Entry → W → W * Settled unit;
  on_request_get : string → W → W * Settled string;
  on_request_put : string → option Entry → W → W * Settled unit
}.
Arguments paramCase {W}.
Arguments createClient {W}.
Arguments newClient {W}.
Arguments on_cluster_health {W}.
Arguments on_getEntries {W}.
Arguments on_indices_exists {W}.
Arguments on_indices_delete {W}.
Arguments on_indices_create {W}.
Arguments on_create {W}.
Arguments on_request_get {W}.
Arguments on_request_put {W}.

(** ** The monad of a run *)

Inductive Outcome (A : Type) :=
| Val (a : A)
| Throw (e : Exn)
| Exit (code : nat).
Arguments Val {A} a.
Arguments Throw {A} e.
Arguments Exit {A} code.

Definition M (W A : Type) : Type := W → W * list Event * Outcome A.

Section Monad.
Context {W : Type}.

Definition ret {A} (a : A) : M W A := λ w, (w, [], Val a).

Definition bind {A B} (m : M W A) (k : A → M W B) : M W B :=
  λ w,
    match m w with
    | (w1, t1, Val a) => let '(w2, t2, o) := k a w1 in (w2, t1 ++ t2, o)
    | (w1, t1, Throw e) => (w1, t1, Throw e)
    | (w1, t1, Exit c) => (w1, t1, Exit c)
    end.

Definition emit (e : Event) : M W unit := λ w, (w, [e], Val tt).

Definition console_log (m : Msg) : M W unit := emit (Log m).

Definition console_error (e : Exn) : M W unit := emit (LogError e).

Definition throw {A} (e : Exn) : M W A := λ w, (w, [], Throw e).

(** [process.exit(code)]: nothing after it runs, not even a [catch]. *)
Definition process_exit {A} (code : nat) : M W A := λ w, (w, [], Exit code).

(** [try { m } catch (e) { h e }] *)
Definition try_catch {A} (m : M W A) (h : Exn → M W A) : M W A :=
  λ w,
    match m w with
    | (w1, t1, Throw e) => let '(w2, t2, o) := h e w1 in (w2, t1 ++ t2, o)
    | r => r
    end.

(** [await] of a remote call: the call is issued, the service settles
    it, and the script goes on only then. *)
Definition await {A} (c : Call) (h : W → W * Settled A) : M W (Settled A) :=
  λ w, let '(w1, r) := h w in (w1, [Issue c; Settle c (is_resolved r)], Val r).

(** [await call.catch(handler)]: a rejection runs the handler and the
    awaited value is [undefined]. *)
Definition await_catch {A} (c : Call) (h : W → W * Settled A)
    (handler : Exn → M W unit) : M W (option A) :=
  bind (await c h) (λ r,
    match r with
    | Resolved a => ret (Some a)
    | Rejected e => bind (handler e) (λ _, ret None)
    end).

Definition when (b : bool) (m : M W unit) : M W unit :=
  if b then m else ret tt.

(** A construction that may throw. *)
Definition construct (r : option Exn) : M W unit :=
  match r with Some e => throw e | None => ret tt end.
End Monad.

Notation "'let*' x ':=' m 'in' k" := (bind m (λ x, k))
  (at level 10, x name, m at level 100, k at level 200, only parsing).
Notation "m ;; k" := (bind m (λ _, k))
  (at level 100, k at level 200, right associativity, only parsing).

(** The trace, the outcome and the exit status of a run.  A script that
    ends without [process.exit] leaves Node's default exit code 0; an
    uncaught exception gives 1. *)
Definition trace_of {W A} (r : W * list Event * Outcome A) : list Event := snd (fst r).
Definition world_of {W A} (r : W * list Event * Outcome A) : W := fst (fst r).
Definition outcome_of {W A} (r : W * list Event * Outcome A) : Outcome A := snd r.

Definition exit_status {A} (o : Outcome A) : nat :=
  match o with
  | Val _ => 0
  | Throw _ => 1
  | Exit c => c
  end.

(** What reading a property of [undefined] throws. *)
Definition type_error : Exn :=
  TypeError "Cannot read property 'acknowledged' of undefined".

(** ** The index-management-aware script (elasticsearch client) *)

Module Canonical.
Section Script.
Context {W : Type} (svc : Services W) (program : Program) (penv : process.env).

(** Environment variables *)
Definition SPACE_ID : option string := process.CONTENTFUL_SPACE_ID penv.
Definition ACCESS_TOKEN : option string := process.CONTENTFUL_ACCESS_TOKEN penv.
Definition ELASTICSEARCH_HOST : string :=
  or_else (process.ELASTICSEARCH_HOST penv) "localhost".
(** The default port is the number 9200 in the script; only its
    truthiness and its printed form are used. *)
Definition ELASTICSEARCH_PORT : string :=
  or_else (process.ELASTICSEARCH_PORT penv) "9200".

(** Script parameters.  [program.args[0]] is read only after the check
    that there is exactly one positional argument. *)
Definition CONTENT_TYPE : string := default "" (head (args program)).
Definition ENVIRONMENT : string := or_else (env program) "master".
Definition INDEX_NAME : string :=
  or_else (index program)
    ("research-hub-" +:+ ENVIRONMENT +:+ "-" +:+ paramCase svc CONTENT_TYPE).
Definition VERBOSE : bool := verbose program.
Definition SUMMARY : bool := summary program.
Definition CREATE_INDEX : bool := createIndex program.
Definition RESET : bool := reset program.

Definition logTable (items : list Entry) : M W unit :=
  console_log (SummaryTable ((λ entry, (id (sys entry), fields_name entry)) <$> items)).

(** [x.acknowledged]: a [TypeError] when [x] is [undefined]. *)
Definition get_acknowledged (x : option Ack) : M W bool :=
  match x with
  | Some a => ret (acknowledged a)
  | None => throw type_error
  end.

(** The [for (const item of items)] loop of [postItems]; [fails] is
    the counter the [catch] handler increments. *)
Fixpoint post_docs (items : list Entry) (fails : nat) : M W nat :=
  match items with
  | [] => ret fails
  | item :: rest =>
      let* r := await (create INDEX_NAME "_doc" (id (sys item)) item)
                      (on_create svc INDEX_NAME "_doc" (id (sys item)) item) in
      match r with
      | Resolved _ => post_docs rest fails
      | Rejected e => console_log (Red (message e)) ;; post_docs rest (S fails)
      end
  end.

(** Lines 106 to 123 of [postItems]: post docs to index. *)
Definition post_to_index (items : list Entry) : M W nat :=
  let* fails := post_docs items 0 in
  console_log (Posted (bool_decide (fails = 0)) (length items - fails) fails) ;;
  ret fails.

Definition postItems (items : list Entry) : M W nat :=
  (* check if index exists *)
  let* found := await_catch (indices_exists INDEX_NAME)
                  (on_indices_exists svc INDEX_NAME)
                  (λ e, when VERBOSE (console_error e)) in
  let esIndexExists := default false found in
  console_log (ExistingIndex esIndexExists) ;;
  (* delete and re-create the index if --reset flag *)
  (if RESET && esIndexExists then
     console_log ResetDeleting ;;
     let* res := await_catch (indices_delete INDEX_NAME)
                   (on_indices_delete svc INDEX_NAME)
                   (λ e, when VERBOSE (console_error e)) in
     let* ack := get_acknowledged res in
     console_log (Deleted ack)
   else ret tt) ;;
  (* create index if not exists *)
  if (CREATE_INDEX && negb esIndexExists) || RESET then
    let* esIndexCreate := await_catch (indices_create INDEX_NAME)
                            (on_indices_create svc INDEX_NAME)
                            (λ e, when VERBOSE (console_error e)) in
    let* ack := get_acknowledged esIndexCreate in
    console_log (Created ack) ;;
    post_to_index items
  else if negb esIndexExists then
    console_log NoCreateIndex ;;
    ret 1
  else
    post_to_index items.

Definition doSync : M W nat :=
  let* response := await_catch (getEntries 0 1000 CONTENT_TYPE)
                     (on_getEntries svc 0 1000 CONTENT_TYPE)
                     (λ e, when VERBOSE (console_error e)) in
  console_log (Retrieve (bool_decide (is_Some response))) ;;
  match response with
  | Some response =>
      console_log (Found (bool_decide (0 < length (items response)))
                         (length (items response))) ;;
      if bool_decide (0 < length (items response)) then
        when SUMMARY (logTable (items response)) ;;
        postItems (items response)
      else
        console_log Aborting ;;
        ret 1
  | None =>
      console_log Aborting ;;
      ret 1
  end.

(** The body of the [try] block of the [async] function the script
    ends with. *)
Definition try_block : M W unit :=
  console_log (EnvVars (truthy_opt SPACE_ID && truthy_opt ACCESS_TOKEN
                        && truthy ELASTICSEARCH_HOST && truthy ELASTICSEARCH_PORT)) ;;
  construct (createClient svc SPACE_ID ENVIRONMENT ACCESS_TOKEN) ;;
  construct (newClient svc ELASTICSEARCH_HOST ELASTICSEARCH_PORT) ;;
  let* esHealth := await_catch (cluster_health "2s")
                     (on_cluster_health svc "2s")
                     (λ e, when VERBOSE (console_error e)) in
  console_log (Connect (bool_decide (is_Some esHealth))) ;;
  match esHealth with
  | Some h =>
      when VERBOSE (console_log (HealthObject h)) ;;
      let* status := doSync in
      process_exit (match status with 0 => 0 | _ => 1 end)
  | None =>
      console_log Aborting ;;
      process_exit 1
  end.

Definition sync : M W unit :=
  try_catch try_block (λ e, when VERBOSE (console_error e)).

(** The script from the check of the positional arguments on (line 24),
    for the [program] object that commander's [parse] returned; the
    commander step before it is [Commander.run] below. *)
Definition main : M W unit :=
  if bool_decide (length (args program) ≠ 1) then
    emit OutputHelp ;;
    process_exit 1
  else
    console_log Banner ;;
    console_log (InfoTable INDEX_NAME CONTENT_TYPE ENVIRONMENT) ;;
    sync.
End Script.
End Canonical.

(** A possibly undefined string inside a template literal. *)
Definition interpolate (o : option string) : string := default "undefined" o.

(** ** [src/index.js]: positional parameters with defaults, raw PUT requests *)

Module IndexJs.
Section Script.
Context {W : Type} (svc : Services W) (argv : process.argv) (penv : process.env).

(** Environment variables *)
Definition SPACE_ID : option string := process.CONTENTFUL_SPACE_ID penv.
Definition ACCESS_TOKEN : option string := process.CONTENTFUL_ACCESS_TOKEN penv.
Definition ELASTICSEARCH_URL : option string := process.ELASTICSEARCH_URL penv.

(** Script parameters *)
Definition CONTENT_TYPE : string := or_else (argv !! 2) "contentItem".
Definition INDEX_NAME : string := or_else (argv !! 3) "research-hub-master-articles".
Definition ENVIRONMENT : string := or_else (argv !! 4) "master".

(** Flags *)
Definition VERBOSE : bool := true.
Definition QUIET : bool := false.

Definition logTable (items : list Entry) : M W unit :=
  console_log (SummaryTable ((λ entry, (id (sys entry), fields_name entry)) <$> items)).

Definition doc_uri (item : Entry) : string :=
  interpolate ELASTICSEARCH_URL +:+ "/" +:+ INDEX_NAME +:+ "/_doc/" +:+ id (sys item).

Fixpoint put_docs (items : list Entry) (fails : nat) : M W nat :=
  match items with
  | [] => ret fails
  | item :: rest =>
      let* postResult := await (request_put (doc_uri item) (Some item))
                               (on_request_put svc (doc_uri item) (Some item)) in
      match postResult with
      | Resolved _ => put_docs rest fails
      | Rejected e => when (negb QUIET) (console_error e) ;; put_docs rest (S fails)
      end
  end.

(** Returns nothing. *)
Definition postItems (items : list Entry) : M W unit :=
  let* fails := put_docs items 0 in
  console_log (Posted (bool_decide (fails = 0)) (length items - fails) fails) ;;
  console_log Finished.

Definition doSync : M W unit :=
  let* response := await_catch (getEntries 0 1000 CONTENT_TYPE)
                     (on_getEntries svc 0 1000 CONTENT_TYPE)
                     (λ e, when (negb QUIET) (console_error e)) in
  console_log (Retrieve (bool_decide (is_Some response))) ;;
  match response with
  | Some response =>
      console_log (Found (bool_decide (0 < length (items response)))
                         (length (items response))) ;;
      if bool_decide (0 < length (items response)) then
        when VERBOSE (logTable (items response)) ;;
        postItems (items response)
      else
        console_log Aborting
  | None =>
      console_log Aborting
  end.

Definition health_uri : string := interpolate ELASTICSEARCH_URL +:+ "/_cat/health".

Definition try_block : M W unit :=
  construct (createClient svc SPACE_ID ENVIRONMENT ACCESS_TOKEN) ;;
  console_log (EnvVars (truthy_opt SPACE_ID && truthy_opt ACCESS_TOKEN
                        && truthy_opt ELASTICSEARCH_URL)) ;;
  console_log (ScriptParams (truthy CONTENT_TYPE && truthy INDEX_NAME
                             && truthy ENVIRONMENT)) ;;
  let* esHealth := await_catch (request_get health_uri)
                     (on_request_get svc health_uri)
                     (λ e, when (negb QUIET) (console_error e)) in
  console_log (Connect (truthy_opt esHealth)) ;;
  if truthy_opt esHealth then
    doSync
  else
    console_log Aborting.

Definition sync : M W unit :=
  try_catch try_block (λ e, when (negb QUIET) (console_error e)).

Definition main : M W unit :=
  console_log Banner ;;
  console_log (InfoTable INDEX_NAME CONTENT_TYPE ENVIRONMENT) ;;
  sync.
End Script.
End IndexJs.

(** ** [src/research-hub-sync.js], first script: commander flags, raw PUT
    requests, index created when absent *)

Module ResearchHubSync.
Section Script.
Context {W : Type} (svc : Services W) (program : Program) (penv : process.env).

Definition SPACE_ID : option string := process.CONTENTFUL_SPACE_ID penv.
Definition ACCESS_TOKEN : option string := process.CONTENTFUL_ACCESS_TOKEN penv.
Definition ELASTICSEARCH_URL : option string := process.ELASTICSEARCH_URL penv.

Definition CONTENT_TYPE : string := default "" (head (args program)).
Definition ENVIRONMENT : string := or_else (env program) "master".
Definition INDEX_NAME : string :=
  or_else (index program)
    ("research-hub-" +:+ ENVIRONMENT +:+ "-" +:+ paramCase svc CONTENT_TYPE).
Definition VERBOSE : bool := verbose program.
Definition SUMMARY : bool := summary program.
Definition CREATE_INDEX : bool := createIndex program.

Definition logTable (items : list Entry) : M W unit :=
  console_log (SummaryTable ((λ entry, (id (sys entry), fields_name entry)) <$> items)).

Definition index_uri : string := interpolate ELASTICSEARCH_URL +:+ "/" +:+ INDEX_NAME.

Definition doc_uri (item : Entry) : string :=
  interpolate ELASTICSEARCH_URL +:+ "/" +:+ INDEX_NAME +:+ "/_doc/" +:+ id (sys item).

Fixpoint put_docs (items : list Entry) (fails : nat) : M W nat :=
  match items with
  | [] => ret fails
  | item :: rest =>
      let* postResult := await (request_put (doc_uri item) (Some item))
                               (on_request_put svc (doc_uri item) (Some item)) in
      match postResult with
      | Resolved _ => put_docs rest fails
      | Rejected e => when VERBOSE (console_error e) ;; put_docs rest (S fails)
      end
  end.

Definition post_to_index (items : list Entry) : M W nat :=
  let* fails := put_docs items 0 in
  console_log (Posted (bool_decide (fails = 0)) (length items - fails) fails) ;;
  ret fails.

Definition postItems (items : list Entry) : M W nat :=
  (* check if index exists *)
  let* esIndexGet := await_catch (request_get index_uri)
                       (on_request_get svc index_uri)
                       (λ e, when VERBOSE (console_error e)) in
  console_log (ExistingIndex (truthy_opt esIndexGet)) ;;
  let indexExists := bool_decide (is_Some esIndexGet) in
  (* create index if not exists *)
  if CREATE_INDEX && negb indexExists then
    let* esIndexCreate := await_catch (request_put index_uri None)
                            (on_request_put svc index_uri None)
                            (λ e, when VERBOSE (console_error e)) in
    console_log (Created (bool_decide (is_Some esIndexCreate))) ;;
    post_to_index items
  else if negb indexExists then
    console_log NoCreateIndex ;;
    ret 1
  else
    post_to_index items.

Definition doSync : M W nat :=
  let* response := await_catch (getEntries 0 1000 CONTENT_TYPE)
                     (on_getEntries svc 0 1000 CONTENT_TYPE)
                     (λ e, when VERBOSE (console_error e)) in
  console_log (Retrieve (bool_decide (is_Some response))) ;;
  match response with
  | Some response =>
      console_log (Found (bool_decide (0 < length (items response)))
                         (length (items response))) ;;
      if bool_decide (0 < length (items response)) then
        when SUMMARY (logTable (items response)) ;;
        postItems (items response)
      else
        console_log Aborting ;;
        ret 1
  | None =>
      console_log Aborting ;;
      ret 1
  end.

Definition health_uri : string := interpolate ELASTICSEARCH_URL +:+ "/_cat/health".

Definition try_block : M W unit :=
  construct (createClient svc SPACE_ID ENVIRONMENT ACCESS_TOKEN) ;;
  console_log (EnvVars (truthy_opt SPACE_ID && truthy_opt ACCESS_TOKEN
                        && truthy_opt ELASTICSEARCH_URL)) ;;
  let* esHealth := await_catch (request_get health_uri)
                     (on_request_get svc health_uri)
                     (λ e, when VERBOSE (console_error e)) in
  console_log (Connect (truthy_opt esHealth)) ;;
  if truthy_opt esHealth then
    let* status := doSync in
    process_exit (match status with 0 => 0 | _ => 1 end)
  else
    console_log Aborting ;;
    process_exit 1.

Definition sync : M W unit :=
  try_catch try_block (λ e, when VERBOSE (console_error e)).

(** The script from the check of the positional arguments on, for the
    [program] object that commander's [parse] returned; the commander
    step before it is [Commander.run] below. *)
Definition main : M W unit :=
  if bool_decide (length (args program) ≠ 1) then
    emit OutputHelp ;;
    process_exit 1
  else
    console_log Banner ;;
    console_log (InfoTable INDEX_NAME CONTENT_TYPE ENVIRONMENT) ;;
    sync.
End Script.
End ResearchHubSync.

(** ** Reading a trace *)

(** The remote calls of a trace, in the order they were issued. *)
Definition issued (t : list Event) : list Call :=
  omap (λ e, match e with Issue c => Some c | _ => None end) t.

Definition is_fetch (c : Call) : bool :=
  match c with getEntries _ _ _ => true | _ => false end.

(** A document write of the elasticsearch client. *)
Definition is_doc_write (c : Call) : bool :=
  match c with create _ _ _ _ => true | _ => false end.

Definition fetches (t : list Event) : list Call := List.filter is_fetch (issued t).

Definition doc_writes (t : list Event) : list Call := List.filter is_doc_write (issued t).

(** The events the document loop of the elasticsearch script produces. *)
Definition loop_event (e : Event) : bool :=
  match e with
  | Issue (create _ _ _ _) => true
  | Settle (create _ _ _ _) _ => true
  | Log (Red _) => true
  | _ => false
  end.

(** The [Posted n (m failed)] lines of a trace: glyph, posted, failed. *)
Definition posted_logs (t : list Event) : list (bool * nat * nat) :=
  omap (λ e, match e with Log (Posted ok p f) => Some (ok, p, f) | _ => None end) t.

(** The run got to the end of the document loop. *)
Definition reaches_publish (t : list Event) : bool :=
  match posted_logs t with [] => false | _ => true end.

(** An index delete or an index create of the trace was rejected. *)
Definition is_failed_mgmt (e : Event) : bool :=
  match e with
  | Settle (indices_delete _) false => true
  | Settle (indices_create _) false => true
  | _ => false
  end.

Definition failed_mgmt (t : list Event) : bool := existsb is_failed_mgmt t.







(** ** A run of the elasticsearch script, from the outside *)

Section CanonicalRun.
Context {W : Type} (svc : Services W) (program : Program) (penv : process.env).

(** The document write [postItems] issues for [item]. *)
Definition write_of (item : Entry) : Call :=
  create (Canonical.INDEX_NAME svc program) "_doc" (id (sys item)) item.

Definition constructs (r : option Exn) : bool :=
  match r with None => true | Some _ => false end.

Definition clients_constructed : bool :=
  constructs (createClient svc (Canonical.SPACE_ID penv) (Canonical.ENVIRONMENT program)
                (Canonical.ACCESS_TOKEN penv))
  && constructs (newClient svc (Canonical.ELASTICSEARCH_HOST penv)
                   (Canonical.ELASTICSEARCH_PORT penv)).

(** The run gets to [doSync]: one positional argument, both clients
    constructed, the health probe answered. *)
Definition reaches_sync (w : W) : bool :=
  bool_decide (length (args program) = 1)
  && clients_constructed
  && is_resolved (on_cluster_health svc "2s" w).2.

(** What [postItems] takes the existence check to say: a rejected check
    counts as an absent index. *)
Definition index_found (w : W) : bool :=
  match (on_indices_exists svc (Canonical.INDEX_NAME svc program) w).2 with
  | Resolved found => found
  | Rejected _ => false
  end.

(** The page the source answers the fetch of the run with. *)
Definition fetched_page (w : W) : option (list Entry) :=
  match (on_getEntries svc 0 1000 (Canonical.CONTENT_TYPE program)
           (on_cluster_health svc "2s" w).1).2 with
  | Resolved response => Some (items response)
  | Rejected _ => None
  end.
End CanonicalRun.

(** ** A reference ElasticSearch

    The elasticsearch client's calls against a cluster that behaves as
    ElasticSearch documents them: [create] writes a document only when
    its id is free and is rejected with a version conflict otherwise;
    [indices.create] is rejected when the index exists, [indices.delete]
    when it does not.  The REST view answers [PUT uri] as the index
    operation does: the document at [uri] is created or replaced. *)

Module Elasticsearch.
(** index name to documents by id *)
Abbreviation Cluster := (gmap string (gmap string Entry)).

Definition ok : Ack := {| acknowledged := true |}.

Definition create_doc (index type id : string) (body : Entry) (w : Cluster)
    : Cluster * Settled unit :=
  match w !! index with
  | Some docs =>
      match docs !! id with
      | Some _ => (w, Rejected (Error "[version_conflict_engine_exception] document already exists"))
      | None => (<[index := <[id := body]> docs]> w, Resolved tt)
      end
  | None => (<[index := {[id := body]}]> w, Resolved tt)
  end.

Definition exists_index (index : string) (w : Cluster) : Cluster * Settled bool :=
  (w, Resolved (bool_decide (is_Some (w !! index)))).

Definition delete_index (index : string) (w : Cluster) : Cluster * Settled Ack :=
  match w !! index with
  | Some _ => (delete index w, Resolved ok)
  | None => (w, Rejected (Error "[index_not_found_exception] no such index"))
  end.

Definition create_index (index : string) (w : Cluster) : Cluster * Settled Ack :=
  match w !! index with
  | Some _ => (w, Rejected (Error "[resource_already_exists_exception] index already exists"))
  | None => (<[index := ∅]> w, Resolved ok)
  end.

(** The services of a run against the cluster; the content source
    answers every fetch with [page]. *)
Definition client (page : list Entry) : Services Cluster := {|
  paramCase := λ s, s;
  createClient := λ _ _ _, None;
  newClient := λ _ _, None;
  on_cluster_health := λ _ w, (w, Resolved {| status := "green" |});
  on_getEntries := λ _ _ _ w, (w, Resolved {| items := page |});
  on_indices_exists := exists_index;
  on_indices_delete := delete_index;
  on_indices_create := create_index;
  on_create := create_doc;
  on_request_get := λ _ w, (w, Rejected (Error "not served"));
  on_request_put := λ _ _ w, (w, Rejected (Error "not served"))
|}.

(** The REST view: resources by uri. *)
Abbreviation Resources := (gmap string (option Entry)).

Definition get (uri : string) (w : Resources) : Resources * Settled string :=
  match w !! uri with
  | Some _ => (w, Resolved "{}")
  | None => (w, Rejected (Error "404"))
  end.

Definition put (uri : string) (body : option Entry) (w : Resources)
    : Resources * Settled unit :=
  (<[uri := body]> w, Resolved tt).

Definition rest (page : list Entry) : Services Resources := {|
  paramCase := λ s, s;
  createClient := λ _ _ _, None;
  newClient := λ _ _, None;
  on_cluster_health := λ _ w, (w, Rejected (Error "not served"));
  on_getEntries := λ _ _ _ w, (w, Resolved {| items := page |});
  on_indices_exists := λ _ w, (w, Rejected (Error "not served"));
  on_indices_delete := λ _ w, (w, Rejected (Error "not served"));
  on_indices_create := λ _ w, (w, Rejected (Error "not served"));
  on_create := λ _ _ _ _ w, (w, Rejected (Error "not served"));
  on_request_get := get;
  on_request_put := put
|}.
End Elasticsearch.

(** ** Sample runs *)

Module Sample.
Definition entry (i name : string) : Entry :=
  {| sys := {| id := i |}; fields := [("name", name)] |}.

Definition page : list Entry := [entry "a" "Foo"; entry "b" "Bar"].

Definition penv : process.env := {|
  process.CONTENTFUL_SPACE_ID := Some "space";
  process.CONTENTFUL_ACCESS_TOKEN := Some "token";
  process.ELASTICSEARCH_HOST := None;
  process.ELASTICSEARCH_PORT := None;
  process.ELASTICSEARCH_URL := Some "http://localhost:9200"
|}.

(** [research-hub-sync articles] *)
Definition articles : Program := {|
  args := ["articles"];
  verbose := false;
  summary := false;
  reset := false;
  createIndex := true;
  env := None;
  index := None
|}.

(** [research-hub-sync] *)
Definition no_argument : Program := {|
  args := [];
  verbose := false;
  summary := false;
  reset := false;
  createIndex := true;
  env := None;
  index := None
|}.

(** [research-hub-sync --reset articles] *)
Definition articles_reset : Program := {|
  args := ["articles"];
  verbose := false;
  summary := false;
  reset := true;
  createIndex := true;
  env := None;
  index := None
|}.

(** [research-hub-sync --reset --no-create-index articles] *)
Definition articles_reset_no_create : Program := {|
  args := ["articles"];
  verbose := false;
  summary := false;
  reset := true;
  createIndex := false;
  env := None;
  index := None
|}.

(** [node index.js] *)
Definition node_index_js : process.argv := ["node"; "index.js"].

(** Services that answer as scripted, whatever happened before. *)
Definition scripted (health : Settled Health) (fetch : Settled Response)
    (found : Settled bool) (deleted created : Settled Ack)
    (written : Entry → Settled unit) : Services unit := {|
  paramCase := λ s, s;
  createClient := λ _ _ _, None;
  newClient := λ _ _, None;
  on_cluster_health := λ _ w, (w, health);
  on_getEntries := λ _ _ _ w, (w, fetch);
  on_indices_exists := λ _ w, (w, found);
  on_indices_delete := λ _ w, (w, deleted);
  on_indices_create := λ _ w, (w, created);
  on_create := λ _ _ _ item w, (w, written item);
  on_request_get := λ _ w, (w, Resolved "green");
  on_request_put := λ _ body w,
    (w, match body with Some item => written item | None => Resolved tt end)
|}.

Definition green : Settled Health := Resolved {| status := "green" |}.
Definition two_items : Settled Response := Resolved {| items := page |}.
Definition acked : Settled Ack := Resolved {| acknowledged := true |}.
Definition accept : Entry → Settled unit := λ _, Resolved tt.
Definition refuse (e : Exn) : Entry → Settled unit := λ _, Rejected e.

(** The destination refuses the write of ["b"]. *)
Definition refuse_b : Entry → Settled unit :=
  λ item, if String.eqb (id (sys item)) "b" then Rejected (Error "400") else Resolved tt.

(** No index yet, and the destination refuses to create one. *)
Definition create_refused : Services unit :=
  scripted green two_items (Resolved false) acked
    (Rejected (Error "[invalid_index_name_exception]")) accept.

(** The index is there, and the destination refuses to delete it. *)
Definition delete_refused : Services unit :=
  scripted green two_items (Resolved true)
    (Rejected (Error "[cluster_block_exception]")) acked accept.

(** No index yet; every call is answered. *)
Definition fresh : Services unit :=
  scripted green two_items (Resolved false) acked acked accept.

(** The index is there; every call is answered. *)
Definition ready : Services unit :=
  scripted green two_items (Resolved true) acked acked accept.
End Sample.

(** ** [src/research-hub-sync.js], second script: commander flags, raw PUT
    requests, no index handling *)

Module ResearchHubSync2.
Section Script.
Context {W : Type} (svc : Services W) (program : Program) (penv : process.env).

Definition SPACE_ID : option string := process.CONTENTFUL_SPACE_ID penv.
Definition ACCESS_TOKEN : option string := process.CONTENTFUL_ACCESS_TOKEN penv.
Definition ELASTICSEARCH_URL : option string := process.ELASTICSEARCH_URL penv.

Definition CONTENT_TYPE : string := default "" (head (args program)).
Definition ENVIRONMENT : string := or_else (env program) "master".
Definition INDEX_NAME : string :=
  or_else (index program) ("research-hub-" +:+ ENVIRONMENT +:+ "-" +:+ CONTENT_TYPE).
Definition VERBOSE : bool := verbose program.
Definition SUMMARY : bool := summary program.

Definition logTable (items : list Entry) : M W unit :=
  console_log (SummaryTable ((λ entry, (id (sys entry), fields_name entry)) <$> items)).

Definition doc_uri (item : Entry) : string :=
  interpolate ELASTICSEARCH_URL +:+ "/" +:+ INDEX_NAME +:+ "/_doc/" +:+ id (sys item).

Fixpoint put_docs (items : list Entry) (fails : nat) : M W nat :=
  match items with
  | [] => ret fails
  | item :: rest =>
      let* postResult := await (request_put (doc_uri item) (Some item))
                               (on_request_put svc (doc_uri item) (Some item)) in
      match postResult with
      | Resolved _ => put_docs rest fails
      | Rejected e => when VERBOSE (console_error e) ;; put_docs rest (S fails)
      end
  end.

Definition postItems (items : list Entry) : M W nat :=
  let* fails := put_docs items 0 in
  console_log (Posted (bool_decide (fails = 0)) (length items - fails) fails) ;;
  console_log Finished ;;
  ret fails.

Definition doSync : M W nat :=
  let* response := await_catch (getEntries 0 1000 CONTENT_TYPE)
                     (on_getEntries svc 0 1000 CONTENT_TYPE)
                     (λ e, when VERBOSE (console_error e)) in
  console_log (Retrieve (bool_decide (is_Some response))) ;;
  match response with
  | Some response =>
      console_log (Found (bool_decide (0 < length (items response)))
                         (length (items response))) ;;
      if bool_decide (0 < length (items response)) then
        when SUMMARY (logTable (items response)) ;;
        postItems (items response)
      else
        console_log Aborting ;;
        ret 1
  | None =>
      console_log Aborting ;;
      ret 1
  end.

Definition health_uri : string := interpolate ELASTICSEARCH_URL +:+ "/_cat/health".

Definition try_block : M W unit :=
  construct (createClient svc SPACE_ID ENVIRONMENT ACCESS_TOKEN) ;;
  console_log (EnvVars (truthy_opt SPACE_ID && truthy_opt ACCESS_TOKEN
                        && truthy_opt ELASTICSEARCH_URL)) ;;
  let* esHealth := await_catch (request_get health_uri)
                     (on_request_get svc health_uri)
                     (λ e, when VERBOSE (console_error e)) in
  console_log (Connect (truthy_opt esHealth)) ;;
  if truthy_opt esHealth then
    let* status := doSync in
    process_exit (match status with 0 => 0 | _ => 1 end)
  else
    console_log Aborting ;;
    process_exit 1.

Definition sync : M W unit :=
  try_catch try_block (λ e, when VERBOSE (console_error e)).

(** The script from the check of the positional arguments on, for the
    [program] object that commander's [parse] returned; the commander
    step before it is [Commander.run] below. *)
Definition main : M W unit :=
  if bool_decide (length (args program) ≠ 1) then
    emit OutputHelp ;;
    process_exit 1
  else
    console_log Banner ;;
    console_log (InfoTable INDEX_NAME CONTENT_TYPE ENVIRONMENT) ;;
    sync.
End Script.
End ResearchHubSync2.

(** ** More readers *)

(** What [console.error] printed. *)
Definition error_logs (t : list Event) : list Exn :=
  omap (λ e, match e with LogError x => Some x | _ => None end) t.

(** The red lines. *)
Definition red_logs (t : list Event) : list string :=
  omap (λ e, match e with Log (Red text) => Some text | _ => None end) t.

(** The summary tables printed. *)
Definition summary_tables (t : list Event) : list (list (string * option string)) :=
  omap (λ e, match e with Log (SummaryTable rows) => Some rows | _ => None end) t.

(** The calls of the trace that were rejected. *)
Definition is_rejection (e : Event) : bool :=
  match e with Settle _ false => true | _ => false end.

Definition rejections (t : list Event) : nat := length (List.filter is_rejection t).

(** A document write by PUT. *)
Definition is_doc_put (c : Call) : bool :=
  match c with request_put _ (Some _) => true | _ => false end.

Definition doc_puts (t : list Event) : list Call := List.filter is_doc_put (issued t).

(** A call of the elasticsearch script names [index] when it names an
    index at all. *)
Definition targets (index : string) (c : Call) : bool :=
  match c with
  | indices_exists i | indices_delete i | indices_create i | create i _ _ _ =>
      String.eqb i index
  | cluster_health _ | getEntries _ _ _ => true
  | request_get _ | request_put _ _ => false
  end.

(** The rows [logTable] prints for a page. *)
Definition table_rows (items : list Entry) : list (string * option string) :=
  (λ entry, (id (sys entry), fields_name entry)) <$> items.

Section Plans.
Context {W : Type} (svc : Services W) (program : Program) (penv : process.env).

(** The calls [postItems] of the elasticsearch script is to issue, from
    the flags and the answer to the existence check. *)
Definition plan (items : list Entry) (w : W) : list Call :=
  let found := index_found svc program w in
  indices_exists (Canonical.INDEX_NAME svc program)
  :: (if Canonical.RESET program && found
      then [indices_delete (Canonical.INDEX_NAME svc program)] else [])
  ++ (if (Canonical.CREATE_INDEX program && negb found) || Canonical.RESET program
      then indices_create (Canonical.INDEX_NAME svc program)
           :: (write_of svc program <$> items)
      else if negb found then [] else write_of svc program <$> items).

(** The health request of the scripts that use request-promise resolved
    with a non-empty body. *)
Definition healthy (uri : string) (w : W) : bool :=
  match (on_request_get svc uri w).2 with
  | Resolved body => truthy body
  | Rejected _ => false
  end.

(** The world [postItems] of the elasticsearch script starts in: after
    the health probe and the fetch. *)
Definition publish_world (w : W) : W :=
  (on_getEntries svc 0 1000 (Canonical.CONTENT_TYPE program)
     (on_cluster_health svc "2s" w).1).1.

(** The PUT the request-promise scripts issue for [item]. *)
Definition put_of (uri : Entry → string) (item : Entry) : Call :=
  request_put (uri item) (Some item).
End Plans.

(** ** More sample runs *)

Module Scenario.
(** [research-hub-sync --index Articles -v articles] *)
Definition explicit_index : Program := {|
  args := ["articles"];
  verbose := true;
  summary := false;
  reset := false;
  createIndex := true;
  env := None;
  index := Some "Articles"
|}.

(** [research-hub-sync --no-create-index articles] *)
Definition articles_no_create : Program := {|
  args := ["articles"];
  verbose := false;
  summary := false;
  reset := false;
  createIndex := false;
  env := None;
  index := None
|}.

(** [research-hub-sync --summary articles] *)
Definition articles_summary : Program := {|
  args := ["articles"];
  verbose := false;
  summary := true;
  reset := false;
  createIndex := true;
  env := None;
  index := None
|}.

(** The destination does not answer the health probe. *)
Definition unreachable : Services unit :=
  Sample.scripted (Rejected (Error "ECONNREFUSED")) Sample.two_items (Resolved true)
    Sample.acked Sample.acked Sample.accept.

(** The source refuses the fetch. *)
Definition fetch_refused : Services unit :=
  Sample.scripted Sample.green (Rejected (Error "401")) (Resolved true)
    Sample.acked Sample.acked Sample.accept.

(** The contentful client cannot be constructed. *)
Definition no_client : Services unit := {|
  paramCase := λ s, s;
  createClient := λ _ _ _, Some (TypeError "Expected parameter accessToken");
  newClient := λ _ _, None;
  on_cluster_health := λ _ w, (w, Sample.green);
  on_getEntries := λ _ _ _ w, (w, Sample.two_items);
  on_indices_exists := λ _ w, (w, Resolved true);
  on_indices_delete := λ _ w, (w, Sample.acked);
  on_indices_create := λ _ w, (w, Sample.acked);
  on_create := λ _ _ _ _ w, (w, Resolved tt);
  on_request_get := λ _ w, (w, Resolved "green");
  on_request_put := λ _ _ w, (w, Resolved tt)
|}.

(** Every call is rejected. *)
Definition all_refused : Services unit := {|
  paramCase := λ s, s;
  createClient := λ _ _ _, None;
  newClient := λ _ _, None;
  on_cluster_health := λ _ w, (w, Rejected (Error "health"));
  on_getEntries := λ _ _ _ w, (w, Rejected (Error "fetch"));
  on_indices_exists := λ _ w, (w, Rejected (Error "exists"));
  on_indices_delete := λ _ w, (w, Rejected (Error "delete"));
  on_indices_create := λ _ w, (w, Rejected (Error "create"));
  on_create := λ _ _ _ _ w, (w, Rejected (Error "write"));
  on_request_get := λ _ w, (w, Rejected (Error "get"));
  on_request_put := λ _ _ w, (w, Rejected (Error "put"))
|}.

(** The index is absent, the index PUT is refused, documents are accepted. *)
Definition index_put_refused : Services unit := {|
  paramCase := λ s, s;
  createClient := λ _ _ _, None;
  newClient := λ _ _, None;
  on_cluster_health := λ _ w, (w, Sample.green);
  on_getEntries := λ _ _ _ w, (w, Sample.two_items);
  on_indices_exists := λ _ w, (w, Resolved false);
  on_indices_delete := λ _ w, (w, Sample.acked);
  on_indices_create := λ _ w, (w, Sample.acked);
  on_create := λ _ _ _ _ w, (w, Resolved tt);
  on_request_get := λ uri w,
    (w, if String.eqb uri "http://localhost:9200/_cat/health"
        then Resolved "green" else Rejected (Error "404"));
  on_request_put := λ _ body w,
    (w, match body with Some _ => Resolved tt | None => Rejected (Error "400") end)
|}.
End Scenario.

(** ** The commander step

    The three scripts that use commander start with
    [program.version(..).usage(..).option(..)...parse(process.argv)].
    [parse] returns with the [program] object filled, or ends the
    process itself: after printing the usage (on [--help]), after
    writing the version (on [-V]), or after reporting an option error
    with [console.error].  What commander decides is taken as given:
    [Ends] records whether it printed the usage, what it passed to
    [console.error] and the status it exited with (what it writes to
    standard output besides the usage is not kept in the trace). *)

Inductive Parse :=
| Returns (program : Program)
| Ends (usage : bool) (errors : list string) (code : nat).

Module Commander.
Section Run.
Context {W : Type}.

Fixpoint report (errors : list string) : M W unit :=
  match errors with
  | [] => ret tt
  | text :: rest => console_error (Error text) ;; report rest
  end.

(** [parse] ends the process. *)
Definition ends (usage : bool) (errors : list string) (code : nat) : M W unit :=
  when usage (emit OutputHelp) ;;
  report errors ;;
  process_exit code.

(** A script from its first line: the commander step, then the rest
    of the script on the [program] object of [parse]. *)
Definition run (script : Program → M W unit) (parse : Parse) : M W unit :=
  match parse with
  | Returns program => script program
  | Ends usage errors code => ends usage errors code
  end.
End Run.
End Commander.

(** The three commander scripts from their first line. *)
Module Invocation.
Section Scripts.
Context {W : Type} (svc : Services W) (parse : Parse) (penv : process.env).

Definition canonical : M W unit :=
  Commander.run (λ program, Canonical.main svc program penv) parse.

Definition research_hub_sync : M W unit :=
  Commander.run (λ program, ResearchHubSync.main svc program penv) parse.

Definition research_hub_sync2 : M W unit :=
  Commander.run (λ program, ResearchHubSync2.main svc program penv) parse.
End Scripts.
End Invocation.

(** The document writes of the trace that were rejected: by the
    elasticsearch client, and by PUT. *)
Definition is_rejected_write (e : Event) : bool :=
  match e with Settle (create _ _ _ _) false => true | _ => false end.

Definition rejected_writes (t : list Event) : nat :=
  length (List.filter is_rejected_write t).

Definition is_rejected_put (e : Event) : bool :=
  match e with Settle (request_put _ (Some _)) false => true | _ => false end.

Definition rejected_puts (t : list Event) : nat :=
  length (List.filter is_rejected_put t).

(** The invocation does not get past the check of the positional
    arguments: [parse] ended the process, or returned with a number of
    them other than one. *)
Definition positional_missing (parse : Parse) : Prop :=
  match parse with
  | Returns program => length (args program) ≠ 1
  | Ends _ _ _ => True
  end.

(** Nothing asks for error output: [parse] returned without
    [--verbose], or ended the process without reporting an error. *)
Definition quiet (parse : Parse) : Prop :=
  match parse with
  | Returns program => verbose program = false
  | Ends _ errors _ => errors = []
  end.

(** * Facts *)

(** ** Traces *)

(** The readers go through concatenation. *)
Lemma issued_app t1 t2 : issued (t1 ++ t2) = issued t1 ++ issued t2.
Proof. apply omap_app. Qed.

(** A trace made of loop events has no [Posted] line, no rejected index
    call and no fetch, and all its calls are document writes. *)
Lemma loop_trace t :
  Forall (λ e, loop_event e = true) t →
  posted_logs t = [] ∧ failed_mgmt t = false
  ∧ doc_writes t = issued t ∧ fetches t = [].
Proof.
  induction 1 as [|e t He _ (IH1 & IH2 & IH3 & IH4)]; [done|].
  unfold posted_logs, failed_mgmt, doc_writes, fetches in *.
  destruct e as [c|c ok|m|?|]; try done; [destruct c..|destruct m]; try done;
    simpl in *; rewrite ?IH1, ?IH2, ?IH3, ?IH4; done.
Qed.

Lemma failed_mgmt_elem e t : e ∈ t → is_failed_mgmt e = true → failed_mgmt t = true.
Proof.
  intros Hin He. apply existsb_exists. exists e. by rewrite <- list_elem_of_In.
Qed.


(** Proof steps shared by the case analyses below. *)
Ltac unfold_readers :=
  unfold reaches_publish, posted_logs, failed_mgmt, doc_writes, fetches, issued,
    trace_of, outcome_of, world_of in *.

Ltac unfold_monad :=
  unfold await_catch, await, try_catch, bind, when, construct, console_log,
    console_error, emit, ret, throw, process_exit.

Ltac use_loop_trace :=
  repeat match goal with
    | H : Forall _ _ |- _ =>
        let L1 := fresh in let L2 := fresh in let L3 := fresh in let L4 := fresh in
        destruct (loop_trace _ H) as (L1 & L2 & L3 & L4); clear H;
        unfold_readers;
        rewrite ?omap_app, ?List.filter_app, ?existsb_app, ?L1, ?L2, ?L3, ?L4
    end.

(** ** The elasticsearch script *)

Section CanonicalFacts.
Context {W : Type} (svc : Services W) (program : Program) (penv : process.env).

(** The document loop always returns: it issues the writes of the page
    in order and its count grows by at most one per item. *)
Lemma post_docs_spec items : ∀ fails w,
  ∃ w' t f,
    Canonical.post_docs svc program items fails w = (w', t, Val f)
    ∧ issued t = write_of svc program <$> items
    ∧ Forall (λ e, loop_event e = true) t
    ∧ fails ≤ f ≤ fails + length items.
Proof.
  induction items as [|item rest IH]; intros fails w.
  - exists w, [], fails. repeat split; simpl; auto with lia.
  - simpl. unfold bind at 1, await.
    destruct (on_create svc _ _ _ item w) as [w1 [[]|e]] eqn:Hc.
    + destruct (IH fails w1) as (w' & t & f & -> & Hi & Hl & Hf).
      eexists _, _, _. split; [reflexivity|]. simpl. rewrite Hi.
      repeat split; auto with lia.
    + unfold bind at 1, console_log, emit.
      destruct (IH (S fails) w1) as (w' & t & f & -> & Hi & Hl & Hf).
      eexists _, _, _. split; [reflexivity|]. simpl. rewrite Hi.
      repeat split; auto with lia.
Qed.

(** So does the rest of [postItems] from the loop on, which ends with
    the [Posted] line. *)
Lemma post_to_index_spec items w :
  ∃ w' t f,
    Canonical.post_to_index svc program items w
      = (w', t ++ [Log (Posted (bool_decide (f = 0)) (length items - f) f)], Val f)
    ∧ issued t = write_of svc program <$> items
    ∧ Forall (λ e, loop_event e = true) t
    ∧ f ≤ length items.
Proof.
  destruct (post_docs_spec items 0 w) as (w' & t & f & Heq & Hi & Hl & Hf).
  exists w', t, f. unfold Canonical.post_to_index, bind. rewrite Heq. simpl.
  repeat split; auto with lia.
Qed.

(** Case analysis on what the destination answers to the index calls. *)
Ltac run_index_calls :=
  repeat match goal with
    | |- context [on_indices_delete ?s ?i ?w] =>
        destruct (on_indices_delete s i w) as [? [[]|?]]; cbn
    | |- context [on_indices_create ?s ?i ?w] =>
        destruct (on_indices_create s i w) as [? [[]|?]]; cbn
    | |- context [Canonical.post_to_index ?s ?p ?i ?w] =>
        let H := fresh in
        destruct (post_to_index_spec i w) as (? & ? & ? & H & ? & ? & ?);
        rewrite H; cbn
    end.

(** [postItems]: either the loop is reached and the [Posted] line tells
    the count returned, or no document is written and the function
    throws (a rejected index call) or returns 1. *)
Lemma postItems_spec items w :
  let r := Canonical.postItems svc program items w in
  let t := trace_of r in
  fetches t = []
  ∧ match posted_logs t with
    | [] =>
        doc_writes t = []
        ∧ outcome_of r = if failed_mgmt t then Throw type_error else Val 1
    | l =>
        ∃ f, l = [(bool_decide (f = 0), length items - f, f)]
             ∧ outcome_of r = Val f ∧ f ≤ length items
             ∧ doc_writes t = write_of svc program <$> items
             ∧ failed_mgmt t = false
    end.
Proof.
  unfold Canonical.postItems, Canonical.get_acknowledged. unfold_monad.
  destruct (on_indices_exists svc _ w) as [w1 [[]|e1]];
    destruct (Canonical.RESET program), (Canonical.CREATE_INDEX program),
      (Canonical.VERBOSE program); cbn.
  all: run_index_calls.
  all: try done.
  all: use_loop_trace; cbn.
  all: split; [done|]; eexists; rewrite app_nil_r; eauto.
Qed.

(** [doSync]: one fetch, then as [postItems] on the fetched page. *)
Lemma doSync_spec w :
  let r := Canonical.doSync svc program w in
  let t := trace_of r in
  fetches t = [getEntries 0 1000 (Canonical.CONTENT_TYPE program)]
  ∧ match posted_logs t with
    | [] =>
        doc_writes t = []
        ∧ outcome_of r = if failed_mgmt t then Throw type_error else Val 1
    | l =>
        ∃ page f,
          (on_getEntries svc 0 1000 (Canonical.CONTENT_TYPE program) w).2
            = Resolved page
          ∧ l = [(bool_decide (f = 0), length (items page) - f, f)]
          ∧ outcome_of r = Val f ∧ f ≤ length (items page)
          ∧ doc_writes t = write_of svc program <$> items page
          ∧ failed_mgmt t = false
    end.
Proof.
  unfold Canonical.doSync, Canonical.logTable. unfold_monad.
  destruct (on_getEntries svc _ _ _ w) as [w1 [page|e1]];
    destruct (Canonical.SUMMARY program), (Canonical.VERBOSE program); cbn.
  all: try done.
  all: case_bool_decide; cbn; [|done].
  all: pose proof (postItems_spec (items page) w1) as Hp;
    destruct (Canonical.postItems svc program (items page) w1) as [[w2 t2] o2];
    unfold_readers; cbn in *.
  all: destruct Hp as [-> Hp]; split; [done|].
  all: destruct (omap _ t2); [done|].
  all: destruct Hp as (f & ? & ? & ? & ? & ?); eauto 10.
Qed.

(** The whole script: what it fetched, what it wrote and how it ended. *)
Lemma main_spec w :
  let r := Canonical.main svc program penv w in
  let t := trace_of r in
  fetches t = (if reaches_sync svc program penv w
               then [getEntries 0 1000 (Canonical.CONTENT_TYPE program)] else [])
  ∧ match posted_logs t with
    | [] =>
        doc_writes t = []
        ∧ if failed_mgmt t
          then outcome_of (Canonical.try_block svc program penv w) = Throw type_error
               ∧ outcome_of r = Val tt
          else if bool_decide (length (args program) = 1)
                  && negb (clients_constructed svc program penv)
          then outcome_of r = Val tt
          else outcome_of r = Exit 1
    | l =>
        ∃ page f,
          reaches_sync svc program penv w = true
          ∧ fetched_page svc program w = Some page
          ∧ l = [(bool_decide (f = 0), length page - f, f)]
          ∧ outcome_of r = Exit (match f with 0 => 0 | _ => 1 end)
          ∧ f ≤ length page
          ∧ doc_writes t = write_of svc program <$> page
          ∧ failed_mgmt t = false
    end.
Proof.
  unfold Canonical.main, Canonical.sync, Canonical.try_block, reaches_sync,
    clients_constructed, fetched_page.
  unfold_monad.
  case_bool_decide; case_bool_decide; try lia; cbn; [done|].
  destruct (createClient svc _ _ _); cbn; [destruct (Canonical.VERBOSE program); done|].
  destruct (newClient svc _ _); cbn; [destruct (Canonical.VERBOSE program); done|].
  destruct (on_cluster_health svc "2s" w) as [w1 [h|e1]]; cbn;
    [|destruct (Canonical.VERBOSE program); done].
  destruct (Canonical.VERBOSE program); cbn.
  all: pose proof (doSync_spec w1) as Hp;
    destruct (Canonical.doSync svc program w1) as [[w2 t2] o2];
    unfold_readers; cbn in *.
  all: destruct Hp as [Hf Hp];
    destruct (omap (λ e, match e with Log (Posted _ _ _) => _ | _ => _ end) t2) eqn:Hl;
    [destruct Hp as [Hw ->]; destruct (existsb is_failed_mgmt t2) eqn:Hm
    |destruct Hp as (page & f & Hg & Hl' & -> & ? & Hw & Hm); rewrite Hl' in Hl];
    cbn; rewrite ?omap_app, ?List.filter_app, ?existsb_app, ?Hf, ?Hl, ?Hw, ?Hm, ?Hg; cbn;
    rewrite ?app_nil_r; eauto 12.
Qed.

(** The exit status of every run: 0 exactly when the page was posted
    without a failure, or an exception reached the [catch] of the
    [async] function (which does not exit). *)
Lemma exit_status_zero w :
  let r := Canonical.main svc program penv w in
  exit_status (outcome_of r) = 0
  ↔ (∃ n, posted_logs (trace_of r) = [(true, n, 0)])
    ∨ failed_mgmt (trace_of r) = true
    ∨ (length (args program) = 1 ∧ clients_constructed svc program penv = false).
Proof.
  intros r. destruct (main_spec w) as [_ H]. fold r in H.
  destruct (posted_logs (trace_of r)) as [|x l] eqn:Hl.
  - destruct H as [_ H]. destruct (failed_mgmt (trace_of r)).
    + destruct H as [_ ->]. simpl. tauto.
    + case_bool_decide as Ha; destruct (clients_constructed svc program penv);
        simpl in H; rewrite H; simpl.
      all: split; [try done; tauto|]; intros [[n ?]|[?|[? ?]]]; done.
  - destruct H as (page & f & Hs & _ & -> & -> & _ & _ & ->).
    unfold reaches_sync in Hs. apply andb_true_iff in Hs as [Hs _].
    apply andb_true_iff in Hs as [_ Hs]. rewrite Hs.
    destruct f; simpl.
    + split; [eauto|done].
    + split; [done|]. intros [[n ?]|[?|[? ?]]]; done.
Qed.

(** C8.  When the index delete or the index create call of a run is
    rejected, reading [acknowledged] of the undefined result throws a
    [TypeError] out of the [try] block; the [catch] of the [async]
    function takes it, no document is written, [process.exit] is never
    called and the exit status is 0. *)
Theorem failed_index_call_is_swallowed w :
  Settle (indices_delete (Canonical.INDEX_NAME svc program)) false
    ∈ trace_of (Canonical.main svc program penv w)
  ∨ Settle (indices_create (Canonical.INDEX_NAME svc program)) false
    ∈ trace_of (Canonical.main svc program penv w) →
  outcome_of (Canonical.try_block svc program penv w) = Throw type_error
  ∧ doc_writes (trace_of (Canonical.main svc program penv w)) = []
  ∧ posted_logs (trace_of (Canonical.main svc program penv w)) = []
  ∧ outcome_of (Canonical.main svc program penv w) = Val tt
  ∧ exit_status (outcome_of (Canonical.main svc program penv w)) = 0.
Proof.
  intros Hin.
  assert (failed_mgmt (trace_of (Canonical.main svc program penv w)) = true) as Hm
    by (destruct Hin as [Hin|Hin]; by apply (failed_mgmt_elem _ _ Hin)).
  destruct (main_spec w) as [_ H]. cbv zeta in H.
  destruct (posted_logs _) as [|x l].
  - rewrite Hm in H. destruct H as (? & ? & Ho). rewrite Ho. done.
  - destruct H as (? & ? & _ & _ & _ & _ & _ & _ & Hm'). congruence.
Qed.

(** C6, as amended.  A run issues one source fetch, with offset 0 and
    limit 1000, when it gets to [doSync], and none otherwise; when it
    gets to the end of the document loop, the document writes are as
    many as the items of the fetched page and the failures counted are
    at most as many. *)
Theorem one_fetch_and_one_attempt_per_item w :
  fetches (trace_of (Canonical.main svc program penv w))
    = (if reaches_sync svc program penv w
       then [getEntries 0 1000 (Canonical.CONTENT_TYPE program)] else [])
  ∧ if reaches_publish (trace_of (Canonical.main svc program penv w))
    then ∃ page ok posted failed,
           fetched_page svc program w = Some page
           ∧ posted_logs (trace_of (Canonical.main svc program penv w))
               = [(ok, posted, failed)]
           ∧ length (doc_writes (trace_of (Canonical.main svc program penv w)))
               = length page
           ∧ failed ≤ length (doc_writes (trace_of (Canonical.main svc program penv w)))
    else doc_writes (trace_of (Canonical.main svc program penv w)) = [].
Proof.
  destruct (main_spec w) as [Hf H]. cbv zeta in *. split; [done|].
  unfold reaches_publish. destruct (posted_logs _) as [|x l].
  - by destruct H.
  - destruct H as (page & f & _ & Hp & -> & _ & ? & Hw & _).
    exists page, (bool_decide (f = 0)), (length page - f), f.
    rewrite Hw, length_fmap. done.
Qed.

(** C10.  The document loop issues one write per item of the page, in
    the order of the page, with the item's [sys.id] as document id and
    the item as body, and nothing else; a run of [postItems] issues
    these writes when it gets to the loop, and none when it does not. *)
Theorem writes_follow_the_page items w :
  issued (trace_of (Canonical.post_to_index svc program items w))
    = (λ item, create (Canonical.INDEX_NAME svc program) "_doc" (id (sys item)) item)
        <$> items
  ∧ doc_writes (trace_of (Canonical.postItems svc program items w))
    = if reaches_publish (trace_of (Canonical.postItems svc program items w))
      then (λ item, create (Canonical.INDEX_NAME svc program) "_doc" (id (sys item)) item)
             <$> items
      else [].
Proof.
  split.
  - destruct (post_to_index_spec items w) as (w' & t & f & -> & Hi & _ & _).
    unfold trace_of; simpl. by rewrite issued_app, Hi, app_nil_r.
  - destruct (postItems_spec items w) as [_ H]. cbv zeta in H.
    unfold reaches_publish. destruct (posted_logs _) as [|x l].
    + by destruct H.
    + by destruct H as (f & _ & _ & _ & Hw & _).
Qed.

(** When neither [--reset] is given nor the index may be created, an
    absent index makes [postItems] return 1 after the existence check:
    no index is created and no document is written. *)
Lemma no_create_index_aborts items w :
  Canonical.RESET program = false →
  Canonical.CREATE_INDEX program = false →
  index_found svc program w = false →
  outcome_of (Canonical.postItems svc program items w) = Val 1
  ∧ issued (trace_of (Canonical.postItems svc program items w))
    = [indices_exists (Canonical.INDEX_NAME svc program)].
Proof.
  intros Hr Hc. unfold index_found, Canonical.postItems. unfold_monad.
  rewrite Hr, Hc.
  destruct (on_indices_exists svc _ w) as [w1 [[]|e1]];
    destruct (Canonical.VERBOSE program); cbn; done.
Qed.

End CanonicalFacts.

(** ** [src/index.js] *)

Section IndexJsFacts.
Context {W : Type} (svc : Services W) (argv : process.argv) (penv : process.env).

(** The document loop, [doSync] and the script always run to their end. *)
Lemma put_docs_returns items : ∀ fails w,
  ∃ w' t f, IndexJs.put_docs svc argv penv items fails w = (w', t, Val f).
Proof.
  induction items as [|item rest IH]; intros fails w; [by eexists _, _, _|].
  simpl. unfold_monad.
  destruct (on_request_put svc _ _ w) as [w1 [[]|e]]; cbn.
  - destruct (IH fails w1) as (w' & t & f & ->). by eexists _, _, _.
  - destruct (IH (S fails) w1) as (w' & t & f & ->). by eexists _, _, _.
Qed.

Lemma index_js_doSync_returns w :
  outcome_of (IndexJs.doSync svc argv penv w) = Val tt.
Proof.
  unfold IndexJs.doSync, IndexJs.postItems, IndexJs.logTable. unfold_monad.
  destruct (on_getEntries svc _ _ _ w) as [w1 [page|e1]]; cbn; [|done].
  case_bool_decide; cbn; [|done].
  destruct (put_docs_returns (items page) 0 w1) as (w' & t & f & ->). done.
Qed.

Lemma index_js_returns w :
  outcome_of (IndexJs.main svc argv penv w) = Val tt.
Proof.
  unfold IndexJs.main, IndexJs.sync, IndexJs.try_block. unfold_monad.
  destruct (createClient svc _ _ _); cbn; [done|].
  destruct (on_request_get svc _ w) as [w1 [h|e1]]; cbn; [|done].
  destruct (truthy h); cbn; [|done].
  pose proof (index_js_doSync_returns w1) as H.
  destruct (IndexJs.doSync svc argv penv w1) as [[w2 t2] o2].
  unfold outcome_of in H; simpl in H. by subst o2.
Qed.

(** C9.  [src/index.js] never calls [process.exit]: whatever the
    services answer (a failed fetch, an empty page, every write
    refused), the script runs to its end and the exit status is 0. *)
Theorem index_js_always_exits_zero w :
  outcome_of (IndexJs.main svc argv penv w) = Val tt
  ∧ exit_status (outcome_of (IndexJs.main svc argv penv w)) = 0.
Proof. by rewrite index_js_returns. Qed.

(** Without a positional argument [src/index.js] goes on with the
    default content type: the first thing it does after constructing the
    client is the health request. *)
Lemma index_js_default_content_type w :
  argv !! 2 = None →
  IndexJs.CONTENT_TYPE argv = "contentItem"
  ∧ head (issued (trace_of (IndexJs.main svc argv penv w)))
    = if constructs (createClient svc (IndexJs.SPACE_ID penv) (IndexJs.ENVIRONMENT argv)
                       (IndexJs.ACCESS_TOKEN penv))
      then Some (request_get (IndexJs.health_uri penv)) else None.
Proof.
  intros Ha. split; [unfold IndexJs.CONTENT_TYPE; by rewrite Ha|].
  unfold IndexJs.main, IndexJs.sync, IndexJs.try_block. unfold_monad.
  destruct (createClient svc _ _ _); cbn; [done|].
  destruct (on_request_get svc _ w) as [w1 [h|e1]]; cbn; [|done].
  destruct (truthy h); cbn; [|done].
  destruct (IndexJs.doSync svc argv penv w1) as [[w2 t2] [[]|e|c]]; done.
Qed.
End IndexJsFacts.

(** A process that commander ends: what it leaves in the trace. *)
Lemma commander_report {W} errors (w : W) :
  Commander.report errors w = (w, LogError <$> (Error <$> errors), Val tt).
Proof.
  induction errors as [|text rest IH]; [done|].
  simpl. unfold_monad. by rewrite IH.
Qed.

Lemma commander_ends {W} usage errors code (w : W) :
  Commander.ends usage errors code w
  = (w, (if usage then [OutputHelp] else []) ++ (LogError <$> (Error <$> errors)),
     Exit code).
Proof.
  unfold Commander.ends. unfold_monad.
  destruct usage; cbn; rewrite commander_report; cbn; by rewrite ?app_nil_r.
Qed.

Lemma commander_ends_readers {W} usage errors code (w : W) :
  issued (trace_of (Commander.ends usage errors code w)) = []
  ∧ error_logs (trace_of (Commander.ends usage errors code w)) = Error <$> errors
  ∧ outcome_of (Commander.ends usage errors code w) = Exit code.
Proof.
  rewrite commander_ends. unfold trace_of, outcome_of, issued, error_logs. cbn.
  rewrite !omap_app.
  assert (∀ l : list Exn,
    omap (λ e, match e with Issue c => Some c | _ => None end) (LogError <$> l) = []
    ∧ omap (λ e, match e with LogError x => Some x | _ => None end) (LogError <$> l) = l)
    as H.
  { induction l as [|x l [IH1 IH2]]; [done|]. cbn. by rewrite IH1, IH2. }
  destruct (H (Error <$> errors)) as [-> ->]. by destruct usage.
Qed.

(** C5, as amended.  In the three scripts that parse their command
    line with commander, an invocation that does not give exactly one
    positional argument issues no remote call: either commander ends the
    process itself inside [parse] (usage, version or option error, with
    commander's status), or [parse] returns and the script prints the
    usage and exits with status 1.  [src/index.js] run without the
    content type takes ["contentItem"], goes on to its remote calls and
    ends with status 0. *)
Theorem usage_when_argument_omitted {W} (svc : Services W) parse argv penv w :
  positional_missing parse →
  argv !! 2 = None →
  issued (trace_of (Invocation.canonical svc parse penv w)) = []
  ∧ issued (trace_of (Invocation.research_hub_sync svc parse penv w)) = []
  ∧ issued (trace_of (Invocation.research_hub_sync2 svc parse penv w)) = []
  ∧ match parse with
    | Returns program =>
        Invocation.canonical svc parse penv w = (w, [OutputHelp], Exit 1)
        ∧ Invocation.research_hub_sync svc parse penv w = (w, [OutputHelp], Exit 1)
        ∧ Invocation.research_hub_sync2 svc parse penv w = (w, [OutputHelp], Exit 1)
    | Ends usage errors code =>
        outcome_of (Invocation.canonical svc parse penv w) = Exit code
        ∧ outcome_of (Invocation.research_hub_sync svc parse penv w) = Exit code
        ∧ outcome_of (Invocation.research_hub_sync2 svc parse penv w) = Exit code
    end
  ∧ IndexJs.CONTENT_TYPE argv = "contentItem"
  ∧ head (issued (trace_of (IndexJs.main svc argv penv w)))
    = (if constructs (createClient svc (IndexJs.SPACE_ID penv) (IndexJs.ENVIRONMENT argv)
                        (IndexJs.ACCESS_TOKEN penv))
       then Some (request_get (IndexJs.health_uri penv)) else None)
  ∧ exit_status (outcome_of (IndexJs.main svc argv penv w)) = 0.
Proof.
  intros Hn Ha.
  destruct (index_js_default_content_type svc argv penv w Ha) as [-> ->].
  rewrite index_js_returns.
  unfold Invocation.canonical, Invocation.research_hub_sync,
    Invocation.research_hub_sync2.
  destruct parse as [program|usage errors code]; simpl in *.
  - assert (Canonical.main svc program penv w = (w, [OutputHelp], Exit 1)) as ->.
    { unfold Canonical.main. rewrite bool_decide_eq_true_2 by done. done. }
    assert (ResearchHubSync.main svc program penv w = (w, [OutputHelp], Exit 1)) as ->.
    { unfold ResearchHubSync.main. rewrite bool_decide_eq_true_2 by done. done. }
    assert (ResearchHubSync2.main svc program penv w = (w, [OutputHelp], Exit 1)) as ->.
    { unfold ResearchHubSync2.main. rewrite bool_decide_eq_true_2 by done. done. }
    done.
  - destruct (commander_ends_readers (W:=W) usage errors code w) as (-> & _ & ->). done.
Qed.

(** C5, as amended, on [research-hub-sync] and [node index.js]. *)
Lemma usage_when_argument_omitted_witness :
  issued (trace_of (Invocation.canonical Sample.fresh (Returns Sample.no_argument)
                      Sample.penv tt)) = []
  ∧ issued (trace_of (Invocation.research_hub_sync Sample.fresh (Returns Sample.no_argument)
                        Sample.penv tt)) = []
  ∧ issued (trace_of (Invocation.research_hub_sync2 Sample.fresh (Returns Sample.no_argument)
                        Sample.penv tt)) = []
  ∧ (Invocation.canonical Sample.fresh (Returns Sample.no_argument) Sample.penv tt
       = (tt, [OutputHelp], Exit 1)
     ∧ Invocation.research_hub_sync Sample.fresh (Returns Sample.no_argument) Sample.penv tt
       = (tt, [OutputHelp], Exit 1)
     ∧ Invocation.research_hub_sync2 Sample.fresh (Returns Sample.no_argument) Sample.penv tt
       = (tt, [OutputHelp], Exit 1))
  ∧ IndexJs.CONTENT_TYPE Sample.node_index_js = "contentItem"
  ∧ head (issued (trace_of (IndexJs.main Sample.fresh Sample.node_index_js Sample.penv tt)))
    = (if constructs (createClient Sample.fresh (IndexJs.SPACE_ID Sample.penv)
                        (IndexJs.ENVIRONMENT Sample.node_index_js)
                        (IndexJs.ACCESS_TOKEN Sample.penv))
       then Some (request_get (IndexJs.health_uri Sample.penv)) else None)
  ∧ exit_status (outcome_of (IndexJs.main Sample.fresh Sample.node_index_js Sample.penv tt)) = 0.
Proof.
  apply (usage_when_argument_omitted Sample.fresh (Returns Sample.no_argument)
           Sample.node_index_js Sample.penv tt).
  - simpl. lia.
  - reflexivity.
Defined.

(** C5 as stated fails on [src/index.js]: run without any argument it
    prints no usage, issues remote calls and does not end with status 1. *)
Lemma index_js_runs_without_argument :
  Sample.node_index_js !! 2 = None
  ∧ ¬ (OutputHelp ∈ trace_of (IndexJs.main Sample.fresh Sample.node_index_js Sample.penv tt)
       ∧ exit_status (outcome_of (IndexJs.main Sample.fresh Sample.node_index_js Sample.penv tt)) = 1
       ∧ issued (trace_of (IndexJs.main Sample.fresh Sample.node_index_js Sample.penv tt)) = []).
Proof. split; [done|]. intros (_ & H & _). vm_compute in H. done. Qed.

(** C6 as stated fails on a run without argument: it issues no fetch. *)
Lemma no_fetch_without_argument :
  fetches (trace_of (Canonical.main Sample.fresh Sample.no_argument Sample.penv tt)) = []
  ∧ length (fetches (trace_of (Canonical.main Sample.fresh Sample.no_argument Sample.penv tt))) ≠ 1.
Proof. split; [reflexivity|]. vm_compute. lia. Qed.

(** C8 on [research-hub-sync articles] with the index create refused. *)
Lemma failed_index_call_is_swallowed_witness :
  outcome_of (Canonical.try_block Sample.create_refused Sample.articles Sample.penv tt)
    = Throw type_error
  ∧ doc_writes (trace_of (Canonical.main Sample.create_refused Sample.articles Sample.penv tt)) = []
  ∧ posted_logs (trace_of (Canonical.main Sample.create_refused Sample.articles Sample.penv tt)) = []
  ∧ outcome_of (Canonical.main Sample.create_refused Sample.articles Sample.penv tt) = Val tt
  ∧ exit_status (outcome_of (Canonical.main Sample.create_refused Sample.articles Sample.penv tt)) = 0.
Proof.
  apply (failed_index_call_is_swallowed Sample.create_refused Sample.articles Sample.penv tt).
  right. vm_compute. set_solver.
Defined.


(** ** Runs of the elasticsearch script on sample inputs *)

(** Both writes accepted: two posted, none failed, exit status 0. *)
Example both_writes_accepted :
  posted_logs (trace_of (Canonical.main Sample.ready Sample.articles Sample.penv tt))
    = [(true, 2, 0)]
  ∧ outcome_of (Canonical.main Sample.ready Sample.articles Sample.penv tt) = Exit 0.
Proof. split; reflexivity. Qed.

(** The write of ["b"] refused: the write of ["a"] was still issued and
    accepted, one posted, one failed, exit status 1. *)
Example one_write_refused :
  let run := Canonical.main
    (Sample.scripted Sample.green Sample.two_items (Resolved true)
       Sample.acked Sample.acked Sample.refuse_b)
    Sample.articles Sample.penv tt in
  posted_logs (trace_of run) = [(false, 1, 1)]
  ∧ Settle (create "research-hub-master-articles" "_doc" "a" (Sample.entry "a" "Foo")) true
    ∈ trace_of run
  ∧ outcome_of run = Exit 1.
Proof. repeat split; [vm_compute; set_solver]. Qed.

(** C1 fails here.  [research-hub-sync articles], the source answers with
    two items, the index is absent and the destination refuses to create
    it: the run ends without [process.exit], with exit status 0, though
    the index was never made ready and nothing was published. *)
Theorem exit_zero_when_index_not_created :
  Canonical.main Sample.create_refused Sample.articles Sample.penv tt
    = (tt,
       [Log Banner;
        Log (InfoTable "research-hub-master-articles" "articles" "master");
        Log (EnvVars true);
        Issue (cluster_health "2s"); Settle (cluster_health "2s") true;
        Log (Connect true);
        Issue (getEntries 0 1000 "articles"); Settle (getEntries 0 1000 "articles") true;
        Log (Retrieve true); Log (Found true 2);
        Issue (indices_exists "research-hub-master-articles");
        Settle (indices_exists "research-hub-master-articles") true;
        Log (ExistingIndex false);
        Issue (indices_create "research-hub-master-articles");
        Settle (indices_create "research-hub-master-articles") false],
       Val tt)
  ∧ exit_status
      (outcome_of (Canonical.main Sample.create_refused Sample.articles Sample.penv tt))
    = 0.
Proof. split; reflexivity. Qed.

(** C2 fails here.  [research-hub-sync --reset articles], the index is
    found and the destination refuses to delete it: [postItems] throws
    instead of going on, the index is not created again, the document
    loop is not reached, and the run ends there. *)
Theorem delete_failure_stops_the_run :
  Canonical.postItems Sample.delete_refused Sample.articles_reset Sample.page tt
    = (tt,
       [Issue (indices_exists "research-hub-master-articles");
        Settle (indices_exists "research-hub-master-articles") true;
        Log (ExistingIndex true);
        Log ResetDeleting;
        Issue (indices_delete "research-hub-master-articles");
        Settle (indices_delete "research-hub-master-articles") false],
       Throw type_error)
  ∧ issued (trace_of (Canonical.main Sample.delete_refused Sample.articles_reset
                        Sample.penv tt))
    = [cluster_health "2s"; getEntries 0 1000 "articles";
       indices_exists "research-hub-master-articles";
       indices_delete "research-hub-master-articles"]
  ∧ outcome_of (Canonical.main Sample.delete_refused Sample.articles_reset
                  Sample.penv tt)
    = Val tt.
Proof. repeat split; reflexivity. Qed.

(** C4 fails here.  [research-hub-sync --reset --no-create-index
    articles] with the index absent: the index is created, both
    documents are written and the exit status is 0. *)
Theorem reset_creates_despite_no_create_index :
  index_found Sample.fresh Sample.articles_reset_no_create tt = false
  ∧ Canonical.CREATE_INDEX Sample.articles_reset_no_create = false
  ∧ issued (trace_of (Canonical.main Sample.fresh Sample.articles_reset_no_create
                        Sample.penv tt))
    = [cluster_health "2s"; getEntries 0 1000 "articles";
       indices_exists "research-hub-master-articles";
       indices_create "research-hub-master-articles";
       create "research-hub-master-articles" "_doc" "a" (Sample.entry "a" "Foo");
       create "research-hub-master-articles" "_doc" "b" (Sample.entry "b" "Bar")]
  ∧ outcome_of (Canonical.main Sample.fresh Sample.articles_reset_no_create
                  Sample.penv tt)
    = Exit 0.
Proof. repeat split; reflexivity. Qed.

(** ** Writing twice to the reference ElasticSearch *)

(** A [create] on an id that has a document is rejected, and the
    document stays as it was. *)
Lemma create_doc_conflict index type i body (w : Elasticsearch.Cluster) docs old :
  w !! index = Some docs → docs !! i = Some old →
  ∃ e, Elasticsearch.create_doc index type i body w = (w, Rejected e).
Proof. intros Hi Hd. unfold Elasticsearch.create_doc. rewrite Hi, Hd. eauto. Qed.

(** The document loop of the elasticsearch script on a page whose ids
    all have a document: every write is counted as a failure. *)
Lemma post_docs_all_conflict source program docs page :
  ∀ fails (w : Elasticsearch.Cluster),
    w !! Canonical.INDEX_NAME (Elasticsearch.client source) program = Some docs →
    Forall (λ item, is_Some (docs !! id (sys item))) page →
    ∃ t, Canonical.post_docs (Elasticsearch.client source) program page fails w
         = (w, t, Val (fails + length page)).
Proof.
  induction page as [|item rest IH]; intros fails w Hi Hall.
  - exists []. simpl. unfold ret. do 2 f_equal. lia.
  - apply Forall_cons in Hall as [[old Hd] Hall].
    destruct (create_doc_conflict _ "_doc" _ item w docs old Hi Hd) as [e He].
    destruct (IH (S fails) w Hi Hall) as [t Ht].
    eexists. simpl. unfold_monad. simpl. rewrite He, Ht. cbn.
    do 2 f_equal. lia.
Qed.

(** The document loop of [src/research-hub-sync.js] against the REST
    view: every PUT is accepted, whether the document exists or not. *)
Lemma put_docs_all_accepted source program penv page :
  ∀ fails (w : Elasticsearch.Resources),
    ∃ w' t, ResearchHubSync.put_docs (Elasticsearch.rest source) program penv page fails w
            = (w', t, Val fails).
Proof.
  induction page as [|item rest IH]; intros fails w; [by eexists _, _|].
  simpl. unfold_monad. simpl.
  destruct (IH fails (<[ResearchHubSync.doc_uri (Elasticsearch.rest source) program penv item
                        := Some item]> w)) as (w' & t & ->).
  by eexists _, _.
Qed.

(** C3 fails here.  [research-hub-sync articles] run twice against the
    reference ElasticSearch, starting without the index: the first run
    posts both documents, the second finds their ids taken, counts two
    failures, leaves the documents as they were and exits with 1. *)
Theorem republishing_fails_every_item :
  let first := Canonical.main (Elasticsearch.client Sample.page) Sample.articles
                 Sample.penv ∅ in
  let second := Canonical.main (Elasticsearch.client Sample.page) Sample.articles
                  Sample.penv (world_of first) in
  posted_logs (trace_of first) = [(true, 2, 0)]
  ∧ outcome_of first = Exit 0
  ∧ posted_logs (trace_of second) = [(false, 0, 2)]
  ∧ outcome_of second = Exit 1
  ∧ world_of second = world_of first.
Proof. repeat split; vm_compute; reflexivity. Qed.

(** The same two runs of [src/research-hub-sync.js], which writes with
    PUT: both runs post both documents and exit with 0. *)
Example put_republishing_succeeds :
  let start : Elasticsearch.Resources := {[ "http://localhost:9200/_cat/health" := None ]} in
  let first := ResearchHubSync.main (Elasticsearch.rest Sample.page) Sample.articles
                 Sample.penv start in
  let second := ResearchHubSync.main (Elasticsearch.rest Sample.page) Sample.articles
                  Sample.penv (world_of first) in
  posted_logs (trace_of first) = [(true, 2, 0)]
  ∧ outcome_of first = Exit 0
  ∧ posted_logs (trace_of second) = [(true, 2, 0)]
  ∧ outcome_of second = Exit 0.
Proof. repeat split; vm_compute; reflexivity. Qed.

(** * More facts *)

Ltac unfold_more_readers :=
  unfold error_logs, red_logs, summary_tables, rejections, doc_puts, table_rows in *.

(** What the trace of a document loop of the elasticsearch script does
    not contain. *)
Lemma loop_trace_quiet t :
  Forall (λ e, loop_event e = true) t →
  error_logs t = [] ∧ summary_tables t = [].
Proof.
  induction 1 as [|e t He _ [IH1 IH2]]; [done|].
  unfold error_logs, summary_tables in *.
  destruct e as [c|c ok|m|?|]; try done; [destruct c..|destruct m]; try done;
    simpl in *; rewrite ?IH1, ?IH2; done.
Qed.

Section MoreCanonicalFacts.
Context {W : Type} (svc : Services W) (program : Program) (penv : process.env).

(** The count of the document loop is the count it started from plus
    the writes rejected, each of which printed one red line. *)
Lemma post_docs_counts items : ∀ fails w,
  ∃ w' t f,
    Canonical.post_docs svc program items fails w = (w', t, Val f)
    ∧ f = fails + rejections t
    ∧ length (red_logs t) = rejections t
    ∧ rejections t ≤ length items
    ∧ Forall (λ e, loop_event e = true) t.
Proof.
  induction items as [|item rest IH]; intros fails w.
  - exists w, [], fails. repeat split; simpl; auto with lia.
  - simpl. unfold bind at 1, await.
    destruct (on_create svc _ _ _ item w) as [w1 [[]|e]] eqn:Hc.
    + destruct (IH fails w1) as (w' & t & f & -> & Hf & Hr & Hle & Hl).
      eexists _, _, _. split; [reflexivity|].
      unfold rejections, red_logs in *; simpl. repeat split; auto with lia.
    + unfold bind at 1, console_log, emit.
      destruct (IH (S fails) w1) as (w' & t & f & -> & Hf & Hr & Hle & Hl).
      eexists _, _, _. split; [reflexivity|].
      unfold rejections, red_logs in *; simpl. repeat split; auto with lia.
Qed.

(** X8.  From the loop on, [postItems] returns the number of document
    writes the destination rejected; it prints one red line for each,
    whatever [--verbose] says, and its [Posted] line gives the good
    glyph exactly when that number is 0, with posted and failed adding
    up to the size of the page. *)
Theorem posted_line_counts_rejected_writes items w :
  ∃ f,
    outcome_of (Canonical.post_to_index svc program items w) = Val f
    ∧ rejections (trace_of (Canonical.post_to_index svc program items w)) = f
    ∧ length (red_logs (trace_of (Canonical.post_to_index svc program items w))) = f
    ∧ posted_logs (trace_of (Canonical.post_to_index svc program items w))
      = [(bool_decide (f = 0), length items - f, f)]
    ∧ (length items - f) + f = length items.
Proof.
  destruct (post_docs_counts items 0 w) as (w' & t & f & Heq & Hf & Hr & Hle & Hl).
  exists f. unfold Canonical.post_to_index. unfold_monad. rewrite Heq. cbn.
  destruct (loop_trace _ Hl) as (Hp & _).
  unfold rejections, red_logs, posted_logs in *.
  rewrite !List.filter_app, !omap_app, !length_app, Hp. cbn.
  repeat split; lia.
Qed.

Ltac answer_index_calls :=
  repeat match goal with
    | |- context [on_indices_delete ?s ?i ?w] =>
        destruct (on_indices_delete s i w) as [? [[]|?]]; cbn
    | |- context [on_indices_create ?s ?i ?w] =>
        destruct (on_indices_create s i w) as [? [[]|?]]; cbn
    | |- context [Canonical.post_to_index ?s ?p ?i ?w] =>
        let H := fresh in
        destruct (post_to_index_spec s p i w) as (? & ? & ? & H & ? & ? & ?);
        rewrite H; cbn
    end.

(** X6.  The calls [postItems] issues are, in this order: the existence
    check; the index delete, only with [--reset] and the index found;
    the index create, when the index is absent and may be created, or
    with [--reset]; then the writes of the page, unless the index is
    absent and was not created.  What it issues is always a prefix of
    this plan, and the whole plan unless an index call was rejected. *)
Theorem postItems_follows_its_plan items w :
  issued (trace_of (Canonical.postItems svc program items w))
    `prefix_of` plan svc program items w
  ∧ (failed_mgmt (trace_of (Canonical.postItems svc program items w)) = true
     ∨ issued (trace_of (Canonical.postItems svc program items w))
       = plan svc program items w).
Proof.
  unfold plan, index_found, Canonical.postItems, Canonical.get_acknowledged.
  unfold_monad.
  destruct (on_indices_exists svc _ w) as [w1 [[]|e1]];
    destruct (Canonical.RESET program), (Canonical.CREATE_INDEX program),
      (Canonical.VERBOSE program); cbn.
  all: answer_index_calls.
  all: unfold_readers; cbn; rewrite ?omap_app; cbn.
  all: repeat match goal with H : omap _ _ = _ |- _ => rewrite H; clear H end.
  all: rewrite ?app_nil_r.
  all: split; [repeat apply prefix_cons; first [apply prefix_nil | reflexivity]|].
  all: first [by right | by left].
Qed.

(** X7.  [postItems] throws exactly when an index delete or an index
    create was rejected, and then it throws the [TypeError]; otherwise
    it returns a number.  An answer that is not acknowledged does not
    stop it, and it never ends the process itself. *)
Theorem postItems_throws_iff_index_call_rejected items w :
  (failed_mgmt (trace_of (Canonical.postItems svc program items w)) = true
   ∧ outcome_of (Canonical.postItems svc program items w) = Throw type_error)
  ∨ (failed_mgmt (trace_of (Canonical.postItems svc program items w)) = false
     ∧ ∃ f, outcome_of (Canonical.postItems svc program items w) = Val f).
Proof.
  destruct (postItems_spec svc program items w) as [_ H]. cbv zeta in H.
  destruct (posted_logs _) as [|x l].
  - destruct H as [_ ->]. destruct (failed_mgmt _); eauto.
  - destruct H as (f & _ & -> & _ & _ & ->). eauto.
Qed.

(** X3.  When the health probe is rejected, the probe is the only remote
    call of the run, and the run exits with status 1. *)
Theorem no_fetch_when_destination_unreachable w :
  length (args program) = 1 →
  clients_constructed svc program penv = true →
  is_resolved (on_cluster_health svc "2s" w).2 = false →
  issued (trace_of (Canonical.main svc program penv w)) = [cluster_health "2s"]
  ∧ outcome_of (Canonical.main svc program penv w) = Exit 1.
Proof.
  intros Ha Hc Hh. unfold clients_constructed in Hc.
  apply andb_true_iff in Hc as [Hc1 Hc2].
  unfold Canonical.main, Canonical.sync, Canonical.try_block. unfold_monad.
  rewrite bool_decide_eq_false_2 by lia.
  destruct (createClient svc _ _ _); [done|].
  destruct (newClient svc _ _); [done|]. cbn.
  destruct (on_cluster_health svc "2s" w) as [w1 [h|e1]]; cbn in *; [done|].
  destruct (Canonical.VERBOSE program); done.
Qed.

(** X4.  When the fetch is rejected or the page is empty, the run
    issues no call after the fetch (the destination index is not
    looked at) and exits with status 1. *)
Theorem no_destination_call_without_items w :
  reaches_sync svc program penv w = true →
  fetched_page svc program w = None ∨ fetched_page svc program w = Some [] →
  issued (trace_of (Canonical.main svc program penv w))
    = [cluster_health "2s"; getEntries 0 1000 (Canonical.CONTENT_TYPE program)]
  ∧ outcome_of (Canonical.main svc program penv w) = Exit 1.
Proof.
  unfold reaches_sync, clients_constructed, fetched_page.
  intros Hs Hp. apply andb_true_iff in Hs as [Hs Hh].
  apply andb_true_iff in Hs as [Ha Hc]. apply andb_true_iff in Hc as [Hc1 Hc2].
  apply bool_decide_eq_true in Ha.
  unfold Canonical.main, Canonical.sync, Canonical.try_block, Canonical.doSync.
  unfold_monad.
  rewrite bool_decide_eq_false_2 by lia.
  destruct (createClient svc _ _ _); [done|].
  destruct (newClient svc _ _); [done|]. cbn.
  destruct (on_cluster_health svc "2s" w) as [w1 [h|e1]]; cbn in *; [|done].
  destruct (Canonical.VERBOSE program); cbn.
  all: destruct (on_getEntries svc _ _ _ w1) as [w2 [[page]|e2]]; cbn in *; [|done].
  all: destruct Hp as [|Hp]; [done|]; by injection Hp as ->.
Qed.

(** X5.  When a client constructor throws, the run issues no remote
    call, and it ends without [process.exit]: the exit status is 0. *)
Theorem constructor_exception_is_swallowed w :
  length (args program) = 1 →
  clients_constructed svc program penv = false →
  issued (trace_of (Canonical.main svc program penv w)) = []
  ∧ outcome_of (Canonical.main svc program penv w) = Val tt
  ∧ exit_status (outcome_of (Canonical.main svc program penv w)) = 0.
Proof.
  intros Ha Hc. unfold clients_constructed in Hc.
  unfold Canonical.main, Canonical.sync, Canonical.try_block. unfold_monad.
  rewrite bool_decide_eq_false_2 by lia.
  destruct (createClient svc _ _ _); cbn; [destruct (Canonical.VERBOSE program); done|].
  destruct (newClient svc _ _); cbn; [destruct (Canonical.VERBOSE program); done|].
  done.
Qed.

Lemma writes_target items :
  forallb (targets (Canonical.INDEX_NAME svc program)) (write_of svc program <$> items)
  = true.
Proof.
  induction items as [|item rest IH]; [done|].
  simpl. by rewrite String.eqb_refl.
Qed.

(** What [postItems], [doSync] and the script print and call besides
    what the specifications above say. *)
Lemma postItems_more items w :
  (if Canonical.VERBOSE program then True
   else error_logs (trace_of (Canonical.postItems svc program items w)) = [])
  ∧ summary_tables (trace_of (Canonical.postItems svc program items w)) = []
  ∧ forallb (targets (Canonical.INDEX_NAME svc program))
      (issued (trace_of (Canonical.postItems svc program items w))) = true.
Proof.
  unfold Canonical.postItems, Canonical.get_acknowledged. unfold_monad.
  destruct (on_indices_exists svc _ w) as [w1 [[]|e1]];
    destruct (Canonical.RESET program), (Canonical.CREATE_INDEX program),
      (Canonical.VERBOSE program); cbn.
  all: answer_index_calls.
  all: rewrite ?String.eqb_refl; try done.
  all: repeat match goal with
    | H : Forall _ _ |- _ =>
        let L1 := fresh in let L2 := fresh in
        destruct (loop_trace_quiet _ H) as (L1 & L2); clear H
    end.
  all: unfold_readers; unfold_more_readers; cbn.
  all: rewrite ?omap_app, ?forallb_app; cbn.
  all: repeat match goal with H : omap _ _ = _ |- _ => rewrite H; clear H end.
  all: rewrite ?writes_target; done.
Qed.

Lemma doSync_more w :
  (if Canonical.VERBOSE program then True
   else error_logs (trace_of (Canonical.doSync svc program w)) = [])
  ∧ summary_tables (trace_of (Canonical.doSync svc program w))
    = match (on_getEntries svc 0 1000 (Canonical.CONTENT_TYPE program) w).2 with
      | Resolved response =>
          if Canonical.SUMMARY program && bool_decide (0 < length (items response))
          then [table_rows (items response)] else []
      | Rejected _ => []
      end
  ∧ forallb (targets (Canonical.INDEX_NAME svc program))
      (issued (trace_of (Canonical.doSync svc program w))) = true.
Proof.
  unfold Canonical.doSync, Canonical.logTable. unfold_monad.
  destruct (on_getEntries svc _ _ _ w) as [w1 [page|e1]];
    [pose proof (postItems_more (items page) w1) as Hp|];
    destruct (Canonical.SUMMARY program), (Canonical.VERBOSE program); cbn.
  all: try done.
  all: case_bool_decide; cbn; [|done].
  all: destruct (Canonical.postItems svc program (items page) w1) as [[w2 t2] o2];
    unfold_readers; unfold_more_readers; cbn in *.
  all: destruct Hp as (He & -> & ->); try rewrite He; done.
Qed.

Lemma main_more w :
  (if Canonical.VERBOSE program then True
   else error_logs (trace_of (Canonical.main svc program penv w)) = [])
  ∧ summary_tables (trace_of (Canonical.main svc program penv w))
    = (if Canonical.SUMMARY program && reaches_sync svc program penv w
       then match fetched_page svc program w with
            | Some (item :: rest) => [table_rows (item :: rest)]
            | _ => []
            end
       else [])
  ∧ forallb (targets (Canonical.INDEX_NAME svc program))
      (issued (trace_of (Canonical.main svc program penv w))) = true.
Proof.
  unfold Canonical.main, Canonical.sync, Canonical.try_block, reaches_sync,
    clients_constructed, fetched_page.
  unfold_monad.
  case_bool_decide; case_bool_decide; try lia; cbn;
    [by rewrite andb_false_r; destruct (Canonical.VERBOSE program)|].
  destruct (createClient svc _ _ _); cbn;
    [by rewrite andb_false_r; destruct (Canonical.VERBOSE program)|].
  destruct (newClient svc _ _); cbn;
    [by rewrite andb_false_r; destruct (Canonical.VERBOSE program)|].
  destruct (on_cluster_health svc "2s" w) as [w1 [h|e1]]; cbn;
    [|by rewrite andb_false_r; destruct (Canonical.VERBOSE program)].
  pose proof (doSync_more w1) as Hp.
  destruct (Canonical.VERBOSE program); cbn.
  all: destruct (Canonical.doSync svc program w1) as [[w2 t2] [f|e|c]];
    unfold_readers; unfold_more_readers; cbn in *.
  all: destruct Hp as (He & Hs & Ht).
  all: rewrite ?omap_app, ?forallb_app, ?He, ?Hs, ?Ht, ?andb_true_r; cbn.
  all: destruct (on_getEntries svc _ _ _ w1) as [w3 [[[|item rest]]|e3]]; cbn.
  all: destruct (Canonical.SUMMARY program); done.
Qed.

(** X2.  With [--no-create-index], without [--reset], a non-empty page
    fetched and the index absent (or its existence check rejected), the
    run stops after the existence check: no index is created, no
    document is written, and the exit status is 1. *)
Theorem no_create_index_stops_the_run page w :
  reaches_sync svc program penv w = true →
  fetched_page svc program w = Some page →
  page ≠ [] →
  Canonical.RESET program = false →
  Canonical.CREATE_INDEX program = false →
  index_found svc program (publish_world svc program w) = false →
  issued (trace_of (Canonical.main svc program penv w))
    = [cluster_health "2s"; getEntries 0 1000 (Canonical.CONTENT_TYPE program);
       indices_exists (Canonical.INDEX_NAME svc program)]
  ∧ outcome_of (Canonical.main svc program penv w) = Exit 1.
Proof.
  unfold reaches_sync, clients_constructed, fetched_page, publish_world.
  intros Hs Hp Hne Hr Hc Hf. apply andb_true_iff in Hs as [Hs Hh].
  apply andb_true_iff in Hs as [Ha Hcc]. apply andb_true_iff in Hcc as [Hc1 Hc2].
  apply bool_decide_eq_true in Ha.
  unfold Canonical.main, Canonical.sync, Canonical.try_block, Canonical.doSync,
    Canonical.logTable.
  unfold_monad.
  rewrite bool_decide_eq_false_2 by lia.
  destruct (createClient svc _ _ _); [done|].
  destruct (newClient svc _ _); [done|]. cbn.
  destruct (on_cluster_health svc "2s" w) as [w1 [h|e1]]; cbn in *; [|done].
  destruct (Canonical.VERBOSE program) eqn:Hv; cbn.
  all: destruct (on_getEntries svc _ _ _ w1) as [w2 [[items]|e2]]; cbn in *; [|done].
  all: injection Hp as ->.
  all: rewrite bool_decide_eq_true_2 by (destruct page; [done|simpl; lia]); cbn.
  all: destruct (no_create_index_aborts svc program page w2 Hr Hc Hf) as [Ho Hi].
  all: destruct (Canonical.SUMMARY program); cbn.
  all: destruct (Canonical.postItems svc program page w2) as [[w3 t3] o3].
  all: unfold_readers; cbn in *; subst o3; cbn.
  all: by rewrite ?app_nil_r, ?omap_app, ?Hi.
Qed.

(** X10.  The summary table is printed once, with one row of
    [sys.id] and [fields.name] per item of the fetched page in the
    order of the page, exactly when [--summary] is given, the run gets
    to [doSync] and the page is not empty; otherwise no table is
    printed. *)
Theorem summary_table_of_the_fetched_page w :
  summary_tables (trace_of (Canonical.main svc program penv w))
  = if Canonical.SUMMARY program && reaches_sync svc program penv w
    then match fetched_page svc program w with
         | Some (item :: rest) => [table_rows (item :: rest)]
         | _ => []
         end
    else [].
Proof. by destruct (main_more w) as (_ & H & _). Qed.

(** X11.  Every remote call of a run is the health probe, the fetch, or
    a call of the elasticsearch client that names [INDEX_NAME]: no other
    index is checked, deleted, created or written to. *)
Theorem calls_name_the_index w :
  forallb (targets (Canonical.INDEX_NAME svc program))
    (issued (trace_of (Canonical.main svc program penv w))) = true.
Proof. by destruct (main_more w) as (_ & _ & H). Qed.

(** X12.  A non-empty [--index] name is used as it is, without
    [paramCase]: it is [INDEX_NAME], and every index call and document
    write of the run names it. *)
Theorem explicit_index_is_used_verbatim name w :
  index program = Some name →
  name ≠ "" →
  Canonical.INDEX_NAME svc program = name
  ∧ forallb (targets name) (issued (trace_of (Canonical.main svc program penv w))) = true.
Proof.
  intros Hi Hn.
  assert (Canonical.INDEX_NAME svc program = name) as Heq.
  { unfold Canonical.INDEX_NAME, or_else, truthy. rewrite Hi.
    destruct (String.eqb_spec name ""); done. }
  split; [done|]. rewrite <- Heq. by destruct (main_more w) as (_ & _ & H).
Qed.
End MoreCanonicalFacts.

(** ** The scripts that write with PUT *)

Ltac put_loop_step IH fails w1 :=
  let w' := fresh "w'" in let t := fresh "t" in let f := fresh "f" in
  let Hi := fresh in let Hf := fresh in let Hr := fresh in let Hp := fresh in
  let He := fresh in
  destruct (IH fails w1) as (w' & t & f & -> & Hi & Hf & Hr & Hp & He);
  eexists _, _, _; split; [reflexivity|];
  unfold_readers; unfold_more_readers; cbn in *;
  rewrite ?Hi, ?Hp; repeat split; auto with lia.

Section ResearchHubSyncFacts.
Context {W : Type} (svc : Services W) (program : Program) (penv : process.env).

(** The document loop of the first script: one PUT per item, in order;
    the count grows by the PUTs rejected; errors are printed only with
    [--verbose]. *)
Lemma rhs_put_docs_spec items : ∀ fails w,
  ∃ w' t f,
    ResearchHubSync.put_docs svc program penv items fails w = (w', t, Val f)
    ∧ issued t = put_of (ResearchHubSync.doc_uri svc program penv) <$> items
    ∧ f = fails + rejections t
    ∧ rejections t ≤ length items
    ∧ posted_logs t = []
    ∧ length (error_logs t)
      = if ResearchHubSync.VERBOSE program then rejections t else 0.
Proof.
  induction items as [|item rest IH]; intros fails w.
  - exists w, [], fails. repeat split; simpl; auto with lia.
    by destruct (ResearchHubSync.VERBOSE program).
  - simpl. unfold_monad.
    destruct (on_request_put svc _ _ w) as [w1 [[]|e]]; cbn.
    + put_loop_step IH fails w1.
    + destruct (ResearchHubSync.VERBOSE program) eqn:Hv; cbn.
      * put_loop_step IH (S fails) w1.
      * put_loop_step IH (S fails) w1.
Qed.

Lemma rhs_post_to_index_spec items w :
  ∃ w' t f,
    ResearchHubSync.post_to_index svc program penv items w
      = (w', t ++ [Log (Posted (bool_decide (f = 0)) (length items - f) f)], Val f)
    ∧ issued t = put_of (ResearchHubSync.doc_uri svc program penv) <$> items
    ∧ f = rejections t
    ∧ f ≤ length items
    ∧ posted_logs t = [].
Proof.
  destruct (rhs_put_docs_spec items 0 w) as (w' & t & f & Heq & Hi & Hf & Hr & Hp & _).
  exists w', t, f. unfold ResearchHubSync.post_to_index. unfold_monad.
  rewrite Heq. cbn. repeat split; auto with lia.
Qed.

(** X13.  [postItems] of the first script of [src/research-hub-sync.js]
    never throws.  When the index GET is rejected and the index may not
    be created it returns 1 after that GET.  Otherwise it PUTs the
    index when the GET was rejected, then PUTs every item of the page in
    order, also when the index PUT was rejected, and returns the count
    its [Posted] line shows.  A GET that resolves, even with an empty
    body, counts as the index being there. *)
Theorem rhs_postItems_goes_on_after_index_put_failure items w :
  if negb (ResearchHubSync.CREATE_INDEX program)
     && negb (is_resolved (on_request_get svc (ResearchHubSync.index_uri svc program penv) w).2)
  then outcome_of (ResearchHubSync.postItems svc program penv items w) = Val 1
       ∧ issued (trace_of (ResearchHubSync.postItems svc program penv items w))
         = [request_get (ResearchHubSync.index_uri svc program penv)]
  else ∃ f,
         outcome_of (ResearchHubSync.postItems svc program penv items w) = Val f
         ∧ f ≤ length items
         ∧ posted_logs (trace_of (ResearchHubSync.postItems svc program penv items w))
           = [(bool_decide (f = 0), length items - f, f)]
         ∧ issued (trace_of (ResearchHubSync.postItems svc program penv items w))
           = request_get (ResearchHubSync.index_uri svc program penv)
             :: (if is_resolved
                      (on_request_get svc (ResearchHubSync.index_uri svc program penv) w).2
                 then []
                 else [request_put (ResearchHubSync.index_uri svc program penv) None])
             ++ (put_of (ResearchHubSync.doc_uri svc program penv) <$> items).
Proof.
  unfold ResearchHubSync.postItems. unfold_monad.
  destruct (on_request_get svc _ w) as [w1 [body|e1]];
    destruct (ResearchHubSync.CREATE_INDEX program),
      (ResearchHubSync.VERBOSE program); cbn.
  all: repeat match goal with
    | |- context [on_request_put ?s ?u None ?w] =>
        destruct (on_request_put s u None w) as [? [[]|?]]; cbn
    | |- context [ResearchHubSync.post_to_index ?s ?p ?e ?i ?w] =>
        let H := fresh in
        destruct (rhs_post_to_index_spec i w) as (? & ? & ? & H & ? & ? & ? & ?);
        rewrite H; cbn
    end.
  all: try done.
  all: unfold_readers; cbn; rewrite ?omap_app; cbn.
  all: repeat match goal with H : omap _ _ = _ |- _ => rewrite H; clear H end.
  all: rewrite ?app_nil_r; eauto.
Qed.

Lemma rhs_postItems_spec items w :
  let r := ResearchHubSync.postItems svc program penv items w in
  match posted_logs (trace_of r) with
  | [] => outcome_of r = Val 1
  | l => ∃ f, l = [(bool_decide (f = 0), length items - f, f)] ∧ outcome_of r = Val f
  end.
Proof.
  unfold ResearchHubSync.postItems. unfold_monad.
  destruct (on_request_get svc _ w) as [w1 [body|e1]];
    destruct (ResearchHubSync.CREATE_INDEX program),
      (ResearchHubSync.VERBOSE program); cbn.
  all: repeat match goal with
    | |- context [on_request_put ?s ?u None ?w] =>
        destruct (on_request_put s u None w) as [? [[]|?]]; cbn
    | |- context [ResearchHubSync.post_to_index ?s ?p ?e ?i ?w] =>
        let H := fresh in
        destruct (rhs_post_to_index_spec i w) as (? & ? & ? & H & ? & ? & ? & ?);
        rewrite H; cbn
    end.
  all: try done.
  all: unfold_readers; cbn; rewrite ?omap_app; cbn.
  all: repeat match goal with H : omap _ _ = [] |- _ => rewrite H; clear H end.
  all: cbn; eauto.
Qed.

Lemma rhs_doSync_spec w :
  let r := ResearchHubSync.doSync svc program penv w in
  match posted_logs (trace_of r) with
  | [] => outcome_of r = Val 1
  | l => ∃ n f, l = [(bool_decide (f = 0), n, f)] ∧ outcome_of r = Val f
  end.
Proof.
  unfold ResearchHubSync.doSync, ResearchHubSync.logTable. unfold_monad.
  destruct (on_getEntries svc _ _ _ w) as [w1 [page|e1]];
    destruct (ResearchHubSync.SUMMARY program), (ResearchHubSync.VERBOSE program); cbn.
  all: try done.
  all: case_bool_decide; cbn; [|done].
  all: pose proof (rhs_postItems_spec (items page) w1) as Hp;
    destruct (ResearchHubSync.postItems svc program penv (items page) w1) as [[w2 t2] o2];
    unfold_readers; cbn in *.
  all: destruct (omap _ t2); [done|].
  all: destruct Hp as (f & ? & ?); eauto.
Qed.

(** The exit status of the first script from the argument check on,
    read off its [Posted] line. *)
Lemma rhs_main_exit_zero w :
  exit_status (outcome_of (ResearchHubSync.main svc program penv w)) = 0
  ↔ (∃ n, posted_logs (trace_of (ResearchHubSync.main svc program penv w)) = [(true, n, 0)])
    ∨ (length (args program) = 1
       ∧ constructs (createClient svc (ResearchHubSync.SPACE_ID penv)
                       (ResearchHubSync.ENVIRONMENT program)
                       (ResearchHubSync.ACCESS_TOKEN penv)) = false).
Proof.
  unfold ResearchHubSync.main, ResearchHubSync.sync, ResearchHubSync.try_block.
  unfold_monad.
  case_bool_decide as Ha; cbn;
    [split; [done|]; by intros [[n ?]|[? _]]|].
  assert (length (args program) = 1) as Ha' by lia.
  destruct (createClient svc _ _ _); cbn;
    [destruct (ResearchHubSync.VERBOSE program); cbn; split; auto|].
  destruct (on_request_get svc _ w) as [w1 [body|e1]]; cbn;
    [|destruct (ResearchHubSync.VERBOSE program); cbn;
      (split; [done|]; by intros [[n ?]|[_ ?]])].
  destruct (truthy body); cbn; [|split; [done|]; by intros [[n ?]|[_ ?]]].
  pose proof (rhs_doSync_spec w1) as Hp.
  destruct (ResearchHubSync.doSync svc program penv w1) as [[w2 t2] o2].
  unfold_readers; cbn in *. rewrite ?app_nil_r.
  destruct (omap _ t2) as [|x l] eqn:Hl.
  - subst o2. cbn. split; [done|]. rewrite Hl. by intros [[n ?]|[_ ?]].
  - destruct Hp as (n & f & Hx & ->). cbn. rewrite ?app_nil_r, Hl, Hx.
    destruct f; cbn.
    + split; [eauto|done].
    + split; [done|]. by intros [[m ?]|[_ ?]].
Qed.
End ResearchHubSyncFacts.

Section ResearchHubSync2Facts.
Context {W : Type} (svc : Services W) (program : Program) (penv : process.env).

Lemma rhs2_put_docs_spec items : ∀ fails w,
  ∃ w' t f,
    ResearchHubSync2.put_docs svc program penv items fails w = (w', t, Val f)
    ∧ issued t = put_of (ResearchHubSync2.doc_uri program penv) <$> items
    ∧ f = fails + rejections t
    ∧ rejections t ≤ length items
    ∧ posted_logs t = []
    ∧ length (error_logs t)
      = if ResearchHubSync2.VERBOSE program then rejections t else 0.
Proof.
  induction items as [|item rest IH]; intros fails w.
  - exists w, [], fails. repeat split; simpl; auto with lia.
    by destruct (ResearchHubSync2.VERBOSE program).
  - simpl. unfold_monad.
    destruct (on_request_put svc _ _ w) as [w1 [[]|e]]; cbn.
    + put_loop_step IH fails w1.
    + destruct (ResearchHubSync2.VERBOSE program) eqn:Hv; cbn.
      * put_loop_step IH (S fails) w1.
      * put_loop_step IH (S fails) w1.
Qed.

Lemma rhs2_postItems_spec items w :
  ∃ f,
    outcome_of (ResearchHubSync2.postItems svc program penv items w) = Val f
    ∧ posted_logs (trace_of (ResearchHubSync2.postItems svc program penv items w))
      = [(bool_decide (f = 0), length items - f, f)].
Proof.
  destruct (rhs2_put_docs_spec items 0 w) as (w' & t & f & Heq & _ & _ & _ & Hp & _).
  exists f. unfold ResearchHubSync2.postItems. unfold_monad. rewrite Heq. cbn.
  unfold_readers. by rewrite !omap_app, Hp.
Qed.

(** X15.  [postItems] of the second script of
    [src/research-hub-sync.js] issues one PUT per item of the page, in
    order, to the item's document uri with the item as body, and nothing
    else; it returns the number of PUTs rejected, which its [Posted]
    line shows; the errors are printed only with [--verbose]. *)
Theorem rhs2_postItems_puts_every_item items w :
  ∃ f,
    outcome_of (ResearchHubSync2.postItems svc program penv items w) = Val f
    ∧ issued (trace_of (ResearchHubSync2.postItems svc program penv items w))
      = put_of (ResearchHubSync2.doc_uri program penv) <$> items
    ∧ rejections (trace_of (ResearchHubSync2.postItems svc program penv items w)) = f
    ∧ posted_logs (trace_of (ResearchHubSync2.postItems svc program penv items w))
      = [(bool_decide (f = 0), length items - f, f)]
    ∧ (length items - f) + f = length items
    ∧ length (error_logs (trace_of (ResearchHubSync2.postItems svc program penv items w)))
      = if ResearchHubSync2.VERBOSE program then f else 0.
Proof.
  destruct (rhs2_put_docs_spec items 0 w) as (w' & t & f & Heq & Hi & Hf & Hr & Hp & He).
  exists f. unfold ResearchHubSync2.postItems. unfold_monad. rewrite Heq. cbn.
  unfold_readers; unfold_more_readers.
  rewrite !List.filter_app, !omap_app, !length_app, Hi, Hp, He. cbn.
  rewrite !app_nil_r. repeat split; try lia.
  destruct (ResearchHubSync2.VERBOSE program); lia.
Qed.

Lemma rhs2_doSync_spec w :
  let r := ResearchHubSync2.doSync svc program penv w in
  match posted_logs (trace_of r) with
  | [] => outcome_of r = Val 1
  | l => ∃ n f, l = [(bool_decide (f = 0), n, f)] ∧ outcome_of r = Val f
  end.
Proof.
  unfold ResearchHubSync2.doSync, ResearchHubSync2.logTable. unfold_monad.
  destruct (on_getEntries svc _ _ _ w) as [w1 [page|e1]];
    destruct (ResearchHubSync2.SUMMARY program), (ResearchHubSync2.VERBOSE program); cbn.
  all: try done.
  all: case_bool_decide; cbn; [|done].
  all: destruct (rhs2_postItems_spec (items page) w1) as (f & Ho & Hp);
    destruct (ResearchHubSync2.postItems svc program penv (items page) w1) as [[w2 t2] o2];
    unfold_readers; cbn in *.
  all: rewrite Hp, Ho; eauto.
Qed.

(** The exit status of the second script from the argument check on,
    read off its [Posted] line. *)
Lemma rhs2_main_exit_zero w :
  exit_status (outcome_of (ResearchHubSync2.main svc program penv w)) = 0
  ↔ (∃ n, posted_logs (trace_of (ResearchHubSync2.main svc program penv w)) = [(true, n, 0)])
    ∨ (length (args program) = 1
       ∧ constructs (createClient svc (ResearchHubSync2.SPACE_ID penv)
                       (ResearchHubSync2.ENVIRONMENT program)
                       (ResearchHubSync2.ACCESS_TOKEN penv)) = false).
Proof.
  unfold ResearchHubSync2.main, ResearchHubSync2.sync, ResearchHubSync2.try_block.
  unfold_monad.
  case_bool_decide as Ha; cbn;
    [split; [done|]; by intros [[n ?]|[? _]]|].
  assert (length (args program) = 1) as Ha' by lia.
  destruct (createClient svc _ _ _); cbn;
    [destruct (ResearchHubSync2.VERBOSE program); cbn; split; auto|].
  destruct (on_request_get svc _ w) as [w1 [body|e1]]; cbn;
    [|destruct (ResearchHubSync2.VERBOSE program); cbn;
      (split; [done|]; by intros [[n ?]|[_ ?]])].
  destruct (truthy body); cbn; [|split; [done|]; by intros [[n ?]|[_ ?]]].
  pose proof (rhs2_doSync_spec w1) as Hp.
  destruct (ResearchHubSync2.doSync svc program penv w1) as [[w2 t2] o2].
  unfold_readers; cbn in *. rewrite ?app_nil_r.
  destruct (omap _ t2) as [|x l] eqn:Hl.
  - subst o2. cbn. split; [done|]. rewrite Hl. by intros [[n ?]|[_ ?]].
  - destruct Hp as (n & f & Hx & ->). cbn. rewrite ?app_nil_r, Hl, Hx.
    destruct f; cbn.
    + split; [eauto|done].
    + split; [done|]. by intros [[m ?]|[_ ?]].
Qed.
End ResearchHubSync2Facts.

Section MoreIndexJsFacts.
Context {W : Type} (svc : Services W) (argv : process.argv) (penv : process.env).

Lemma index_js_put_docs_spec items : ∀ fails w,
  ∃ w' t f,
    IndexJs.put_docs svc argv penv items fails w = (w', t, Val f)
    ∧ issued t = put_of (IndexJs.doc_uri argv penv) <$> items
    ∧ f = fails + rejections t
    ∧ rejections t ≤ length items
    ∧ posted_logs t = []
    ∧ length (error_logs t) = rejections t.
Proof.
  induction items as [|item rest IH]; intros fails w.
  - exists w, [], fails. repeat split; simpl; auto with lia.
  - simpl. unfold_monad.
    destruct (on_request_put svc _ _ w) as [w1 [[]|e]]; cbn.
    + put_loop_step IH fails w1.
    + put_loop_step IH (S fails) w1.
Qed.

Lemma index_js_postItems_calls items w :
  outcome_of (IndexJs.postItems svc argv penv items w) = Val tt
  ∧ issued (trace_of (IndexJs.postItems svc argv penv items w))
    = put_of (IndexJs.doc_uri argv penv) <$> items.
Proof.
  destruct (index_js_put_docs_spec items 0 w) as (w' & t & f & Heq & Hi & _).
  unfold IndexJs.postItems. unfold_monad. rewrite Heq. cbn.
  unfold_readers. by rewrite !omap_app, Hi, !app_nil_r.
Qed.

(** X17.  [postItems] of [src/index.js] issues one PUT per item of the
    page, in order, to the item's document uri with the item as body,
    and nothing else; it returns nothing; its [Posted] line shows the
    number of PUTs rejected, and every rejection is printed with
    [console.error]. *)
Theorem index_js_postItems_puts_every_item items w :
  outcome_of (IndexJs.postItems svc argv penv items w) = Val tt
  ∧ issued (trace_of (IndexJs.postItems svc argv penv items w))
    = put_of (IndexJs.doc_uri argv penv) <$> items
  ∧ ∃ f,
      rejections (trace_of (IndexJs.postItems svc argv penv items w)) = f
      ∧ posted_logs (trace_of (IndexJs.postItems svc argv penv items w))
        = [(bool_decide (f = 0), length items - f, f)]
      ∧ (length items - f) + f = length items
      ∧ length (error_logs (trace_of (IndexJs.postItems svc argv penv items w))) = f.
Proof.
  destruct (index_js_put_docs_spec items 0 w) as (w' & t & f & Heq & Hi & Hf & Hr & Hp & He).
  unfold IndexJs.postItems. unfold_monad. rewrite Heq. cbn.
  unfold_readers; unfold_more_readers.
  rewrite !List.filter_app, !omap_app, !length_app, Hi, Hp, He. cbn.
  rewrite !app_nil_r. repeat split. exists f. repeat split; lia.
Qed.

(** X18.  [src/index.js] fetches once, with offset 0 and limit 1000,
    when the client is constructed and the health request resolves with
    a non-empty body, and never otherwise: a health request that
    resolves with an empty body stops the run like a rejected one. *)
Theorem index_js_fetches_once_when_healthy w :
  fetches (trace_of (IndexJs.main svc argv penv w))
  = if constructs (createClient svc (IndexJs.SPACE_ID penv) (IndexJs.ENVIRONMENT argv)
                     (IndexJs.ACCESS_TOKEN penv))
       && healthy svc (IndexJs.health_uri penv) w
    then [getEntries 0 1000 (IndexJs.CONTENT_TYPE argv)] else [].
Proof.
  unfold IndexJs.main, IndexJs.sync, IndexJs.try_block, IndexJs.doSync,
    IndexJs.logTable, healthy.
  unfold_monad.
  destruct (createClient svc _ _ _); cbn; [done|].
  destruct (on_request_get svc _ w) as [w1 [body|e1]]; cbn; [|done].
  destruct (truthy body); cbn; [|done].
  destruct (on_getEntries svc _ _ _ w1) as [w2 [page|e2]]; cbn; [|done].
  case_bool_decide; cbn; [|done].
  destruct (index_js_postItems_calls (items page) w2) as (Ho & Hi).
  destruct (IndexJs.postItems svc argv penv (items page) w2) as [[w3 t3] o3].
  unfold_readers; cbn in *. subst o3. cbn. rewrite ?omap_app, Hi. cbn.
  f_equal. clear. induction (items page) as [|item rest IH]; done.
Qed.
End MoreIndexJsFacts.

(** ** The facts above on sample runs *)

(** X3 on a destination that refuses the health probe. *)
Lemma no_fetch_when_destination_unreachable_witness :
  issued (trace_of (Canonical.main Scenario.unreachable Sample.articles Sample.penv tt))
    = [cluster_health "2s"]
  ∧ outcome_of (Canonical.main Scenario.unreachable Sample.articles Sample.penv tt) = Exit 1.
Proof.
  apply (no_fetch_when_destination_unreachable Scenario.unreachable Sample.articles
           Sample.penv tt); reflexivity.
Defined.

(** X4 on a source that refuses the fetch. *)
Lemma no_destination_call_without_items_witness :
  issued (trace_of (Canonical.main Scenario.fetch_refused Sample.articles Sample.penv tt))
    = [cluster_health "2s"; getEntries 0 1000 (Canonical.CONTENT_TYPE Sample.articles)]
  ∧ outcome_of (Canonical.main Scenario.fetch_refused Sample.articles Sample.penv tt)
    = Exit 1.
Proof.
  apply (no_destination_call_without_items Scenario.fetch_refused Sample.articles
           Sample.penv tt); [reflexivity|left; reflexivity].
Defined.

(** X5 on a contentful client that cannot be constructed. *)
Lemma constructor_exception_is_swallowed_witness :
  issued (trace_of (Canonical.main Scenario.no_client Sample.articles Sample.penv tt)) = []
  ∧ outcome_of (Canonical.main Scenario.no_client Sample.articles Sample.penv tt) = Val tt
  ∧ exit_status (outcome_of (Canonical.main Scenario.no_client Sample.articles
                               Sample.penv tt)) = 0.
Proof.
  apply (constructor_exception_is_swallowed Scenario.no_client Sample.articles
           Sample.penv tt); reflexivity.
Defined.


(** X12 on [research-hub-sync --index Articles -v articles]. *)
Lemma explicit_index_is_used_verbatim_witness :
  Canonical.INDEX_NAME Sample.ready Scenario.explicit_index = "Articles"
  ∧ forallb (targets "Articles")
      (issued (trace_of (Canonical.main Sample.ready Scenario.explicit_index
                           Sample.penv tt))) = true.
Proof.
  apply (explicit_index_is_used_verbatim Sample.ready Scenario.explicit_index
           Sample.penv "Articles" tt); [reflexivity|discriminate].
Defined.

(** X2 on [research-hub-sync --no-create-index articles] with the index absent. *)
Lemma no_create_index_stops_the_run_witness :
  issued (trace_of (Canonical.main Sample.fresh Scenario.articles_no_create Sample.penv tt))
    = [cluster_health "2s";
       getEntries 0 1000 (Canonical.CONTENT_TYPE Scenario.articles_no_create);
       indices_exists (Canonical.INDEX_NAME Sample.fresh Scenario.articles_no_create)]
  ∧ outcome_of (Canonical.main Sample.fresh Scenario.articles_no_create Sample.penv tt)
    = Exit 1.
Proof.
  apply (no_create_index_stops_the_run Sample.fresh Scenario.articles_no_create
           Sample.penv Sample.page tt); done.
Defined.

(** ** Invocations from the first line of the script *)

(** From the count of the [Posted] line to the rejected writes. *)
Lemma posted_zero t r :
  posted_logs t = [] ∨ (∃ p, posted_logs t = [(bool_decide (r = 0), p, r)]) →
  (∃ n, posted_logs t = [(true, n, 0)]) ↔ reaches_publish t = true ∧ r = 0.
Proof.
  unfold reaches_publish. intros [->|[p ->]].
  - split; [by intros [n ?]|by intros [? _]].
  - split.
    + intros [n Hn]. by simplify_eq.
    + intros [_ ->]. eauto.
Qed.

Lemma loop_rejected_writes t :
  Forall (λ e, loop_event e = true) t → rejected_writes t = rejections t.
Proof.
  unfold rejected_writes, rejections.
  induction 1 as [|e t He _ IH]; [done|].
  destruct e as [c|c ok|m|?|]; try done;
    try destruct c; try destruct ok; try destruct m; try done;
    simpl in *; by rewrite IH.
Qed.

Section Counts.
Context {W : Type} (svc : Services W) (program : Program) (penv : process.env).

(** Case analysis on the index calls, down to the document loop. *)
Ltac run_index_calls_counts :=
  repeat match goal with
    | |- context [on_indices_delete ?s ?i ?w] =>
        destruct (on_indices_delete s i w) as [? [[]|?]]; cbn
    | |- context [on_indices_create ?s ?i ?w] =>
        destruct (on_indices_create s i w) as [? [[]|?]]; cbn
    | |- context [Canonical.post_docs ?s ?p ?i 0 ?w] =>
        let H := fresh in let Hf := fresh in let Hl := fresh in
        destruct (post_docs_counts s p i 0 w) as (? & ? & ? & H & Hf & _ & _ & Hl);
        rewrite H; cbn; simpl in Hf;
        rewrite <- (loop_rejected_writes _ Hl) in Hf;
        destruct (loop_trace _ Hl) as (? & _); clear Hl
    end.

(** The count of the [Posted] line is the number of writes rejected,
    in [postItems], in [doSync] and in the script. *)
Lemma postItems_posted items w :
  posted_logs (trace_of (Canonical.postItems svc program items w)) = []
  ∨ ∃ p, posted_logs (trace_of (Canonical.postItems svc program items w))
         = [(bool_decide
               (rejected_writes (trace_of (Canonical.postItems svc program items w)) = 0),
             p,
             rejected_writes (trace_of (Canonical.postItems svc program items w)))].
Proof.
  unfold Canonical.postItems, Canonical.post_to_index, Canonical.get_acknowledged.
  unfold_monad.
  destruct (on_indices_exists svc _ w) as [w1 [[]|e1]];
    destruct (Canonical.RESET program), (Canonical.CREATE_INDEX program),
      (Canonical.VERBOSE program); cbn.
  all: run_index_calls_counts.
  all: unfold trace_of; cbn; auto.
  all: right; eexists.
  all: unfold posted_logs, rejected_writes in *; cbn.
  all: rewrite ?omap_app, ?List.filter_app, ?length_app; cbn.
  all: repeat match goal with H : omap _ _ = [] |- _ => rewrite H; clear H end.
  all: rewrite ?Nat.add_0_r; subst; cbn; reflexivity.
Qed.

Lemma doSync_posted w :
  posted_logs (trace_of (Canonical.doSync svc program w)) = []
  ∨ ∃ p, posted_logs (trace_of (Canonical.doSync svc program w))
         = [(bool_decide (rejected_writes (trace_of (Canonical.doSync svc program w)) = 0),
             p, rejected_writes (trace_of (Canonical.doSync svc program w)))].
Proof.
  unfold Canonical.doSync, Canonical.logTable. unfold_monad.
  destruct (on_getEntries svc _ _ _ w) as [w1 [page|e1]];
    destruct (Canonical.SUMMARY program), (Canonical.VERBOSE program); cbn; auto.
  all: case_bool_decide; cbn; auto.
  all: pose proof (postItems_posted (items page) w1) as Hp;
    destruct (Canonical.postItems svc program (items page) w1) as [[w2 t2] o2].
  all: unfold trace_of, posted_logs, rejected_writes in *; cbn in *; done.
Qed.

Lemma main_posted w :
  posted_logs (trace_of (Canonical.main svc program penv w)) = []
  ∨ ∃ p, posted_logs (trace_of (Canonical.main svc program penv w))
         = [(bool_decide
               (rejected_writes (trace_of (Canonical.main svc program penv w)) = 0),
             p, rejected_writes (trace_of (Canonical.main svc program penv w)))].
Proof.
  unfold Canonical.main, Canonical.sync, Canonical.try_block. unfold_monad.
  case_bool_decide; cbn; auto.
  destruct (createClient svc _ _ _); cbn;
    [destruct (Canonical.VERBOSE program); auto|].
  destruct (newClient svc _ _); cbn; [destruct (Canonical.VERBOSE program); auto|].
  destruct (on_cluster_health svc "2s" w) as [w1 [h|e1]]; cbn;
    [|destruct (Canonical.VERBOSE program); auto].
  destruct (Canonical.VERBOSE program); cbn.
  all: pose proof (doSync_posted w1) as Hp;
    destruct (Canonical.doSync svc program w1) as [[w2 t2] [f|e|c]].
  all: unfold trace_of, posted_logs, rejected_writes in *; cbn in *.
  all: rewrite ?omap_app, ?List.filter_app, ?length_app, ?app_nil_r; cbn.
  all: rewrite ?app_nil_r, ?Nat.add_0_r; done.
Qed.
End Counts.

Section CanonicalInvocation.
Context {W : Type} (svc : Services W) (penv : process.env).

(** X1.  The exit status of an invocation: commander's own when it
    ends the process inside [parse]; otherwise 0 or 1, and 0 exactly
    when the document loop ran to its end with no write rejected, or an
    index call was rejected, or a client constructor threw (the
    exception ends in the [catch] of the [async] function, which does
    not exit). *)
Theorem exit_status_of_every_run parse w :
  match parse with
  | Ends usage errors code =>
      exit_status (outcome_of (Invocation.canonical svc parse penv w)) = code
  | Returns program =>
      exit_status (outcome_of (Invocation.canonical svc parse penv w)) ≤ 1
      ∧ (exit_status (outcome_of (Invocation.canonical svc parse penv w)) = 0
         ↔ (reaches_publish (trace_of (Invocation.canonical svc parse penv w)) = true
            ∧ rejected_writes (trace_of (Invocation.canonical svc parse penv w)) = 0)
           ∨ failed_mgmt (trace_of (Invocation.canonical svc parse penv w)) = true
           ∨ (length (args program) = 1 ∧ clients_constructed svc program penv = false))
  end.
Proof.
  unfold Invocation.canonical. destruct parse as [program|usage errors code]; simpl.
  - rewrite <- (posted_zero _ _ (main_posted svc program penv w)).
    split; [|apply exit_status_zero].
    destruct (main_spec svc program penv w) as [_ H]. cbv zeta in H.
    destruct (posted_logs _) as [|x l].
    + destruct H as [_ H]. destruct (failed_mgmt _); [destruct H as [_ ->]; simpl; lia|].
      destruct (_ && _); rewrite H; simpl; lia.
    + destruct H as (page & f & _ & _ & _ & -> & _). destruct f; simpl; lia.
  - by destruct (commander_ends_readers (W:=W) usage errors code w) as (_ & _ & ->).
Qed.

(** X9.  When [parse] returns without [--verbose], or ends the process
    without reporting an error, [console.error] is never called during
    the invocation, whatever the services answer. *)
Theorem quiet_run_prints_no_error parse w :
  quiet parse →
  error_logs (trace_of (Invocation.canonical svc parse penv w)) = [].
Proof.
  unfold Invocation.canonical. destruct parse as [program|usage errors code]; simpl.
  - intros Hv. destruct (main_more svc program penv w) as [H _].
    unfold Canonical.VERBOSE in H. by rewrite Hv in H.
  - intros ->. by destruct (commander_ends_readers (W:=W) usage [] code w) as (_ & -> & _).
Qed.
End CanonicalInvocation.

(** One step of the induction on a PUT loop. *)
Ltac put_count_step IH fails w1 :=
  let w' := fresh "w'" in let t := fresh "t" in let f := fresh "f" in
  let Hf := fresh in let Hp := fresh in
  destruct (IH fails w1) as (w' & t & f & -> & Hf & Hp);
  eexists _, _, _; split; [reflexivity|];
  unfold posted_logs, rejected_puts in *; cbn in *;
  rewrite ?Hp; split; auto with lia.

Section ResearchHubSyncCounts.
Context {W : Type} (svc : Services W) (program : Program) (penv : process.env).

(** The count of the [Posted] line of the first script is the number
    of document PUTs rejected. *)
Lemma rhs_put_docs_rejected items : ∀ fails w,
  ∃ w' t f,
    ResearchHubSync.put_docs svc program penv items fails w = (w', t, Val f)
    ∧ f = fails + rejected_puts t
    ∧ posted_logs t = [].
Proof.
  induction items as [|item rest IH]; intros fails w.
  - exists w, [], fails. repeat split; simpl; auto with lia.
  - simpl. unfold_monad.
    destruct (on_request_put svc _ _ w) as [w1 [[]|e]]; cbn.
    + put_count_step IH fails w1.
    + destruct (ResearchHubSync.VERBOSE program) eqn:Hv; cbn.
      * put_count_step IH (S fails) w1.
      * put_count_step IH (S fails) w1.
Qed.

Lemma rhs_postItems_posted items w :
  posted_logs (trace_of (ResearchHubSync.postItems svc program penv items w)) = []
  ∨ ∃ p, posted_logs (trace_of (ResearchHubSync.postItems svc program penv items w))
         = [(bool_decide
               (rejected_puts
                  (trace_of (ResearchHubSync.postItems svc program penv items w)) = 0),
             p,
             rejected_puts (trace_of (ResearchHubSync.postItems svc program penv items w)))].
Proof.
  unfold ResearchHubSync.postItems, ResearchHubSync.post_to_index. unfold_monad.
  destruct (on_request_get svc _ w) as [w1 [body|e1]];
    destruct (ResearchHubSync.CREATE_INDEX program),
      (ResearchHubSync.VERBOSE program); cbn.
  all: repeat match goal with
    | |- context [on_request_put ?s ?u None ?w] =>
        destruct (on_request_put s u None w) as [? [[]|?]]; cbn
    | |- context [ResearchHubSync.put_docs ?s ?p ?e ?i 0 ?w] =>
        let H := fresh in let Hf := fresh in
        destruct (rhs_put_docs_rejected i 0 w) as (? & ? & ? & H & Hf & ?);
        rewrite H; cbn; simpl in Hf
    end.
  all: unfold trace_of; cbn; auto.
  all: right; eexists.
  all: unfold posted_logs, rejected_puts in *; cbn.
  all: rewrite ?omap_app, ?List.filter_app, ?length_app; cbn.
  all: repeat match goal with H : omap _ _ = [] |- _ => rewrite H; clear H end.
  all: rewrite ?Nat.add_0_r; subst; cbn; reflexivity.
Qed.

Lemma rhs_doSync_posted w :
  posted_logs (trace_of (ResearchHubSync.doSync svc program penv w)) = []
  ∨ ∃ p, posted_logs (trace_of (ResearchHubSync.doSync svc program penv w))
         = [(bool_decide
               (rejected_puts (trace_of (ResearchHubSync.doSync svc program penv w)) = 0),
             p, rejected_puts (trace_of (ResearchHubSync.doSync svc program penv w)))].
Proof.
  unfold ResearchHubSync.doSync, ResearchHubSync.logTable. unfold_monad.
  destruct (on_getEntries svc _ _ _ w) as [w1 [page|e1]];
    destruct (ResearchHubSync.SUMMARY program), (ResearchHubSync.VERBOSE program);
    cbn; auto.
  all: case_bool_decide; cbn; auto.
  all: pose proof (rhs_postItems_posted (items page) w1) as Hp;
    destruct (ResearchHubSync.postItems svc program penv (items page) w1)
      as [[w2 t2] o2].
  all: unfold trace_of, posted_logs, rejected_puts in *; cbn in *; done.
Qed.

Lemma rhs_main_posted w :
  posted_logs (trace_of (ResearchHubSync.main svc program penv w)) = []
  ∨ ∃ p, posted_logs (trace_of (ResearchHubSync.main svc program penv w))
         = [(bool_decide
               (rejected_puts (trace_of (ResearchHubSync.main svc program penv w)) = 0),
             p, rejected_puts (trace_of (ResearchHubSync.main svc program penv w)))].
Proof.
  unfold ResearchHubSync.main, ResearchHubSync.sync, ResearchHubSync.try_block.
  unfold_monad.
  case_bool_decide; cbn; auto.
  destruct (createClient svc _ _ _); cbn;
    [destruct (ResearchHubSync.VERBOSE program); auto|].
  destruct (on_request_get svc _ w) as [w1 [body|e1]]; cbn;
    [|destruct (ResearchHubSync.VERBOSE program); auto].
  destruct (truthy body); cbn; auto.
  pose proof (rhs_doSync_posted w1) as Hp.
  destruct (ResearchHubSync.doSync svc program penv w1) as [[w2 t2] [f|e|c]].
  all: unfold trace_of, posted_logs, rejected_puts in *; cbn in *.
  all: rewrite ?omap_app, ?List.filter_app, ?length_app, ?app_nil_r; cbn.
  all: rewrite ?app_nil_r, ?Nat.add_0_r; try done.
  all: destruct (ResearchHubSync.VERBOSE program); cbn;
    rewrite ?omap_app, ?List.filter_app, ?length_app, ?app_nil_r; cbn;
    rewrite ?app_nil_r, ?Nat.add_0_r; done.
Qed.
End ResearchHubSyncCounts.

(** X14.  The exit status of an invocation of the first script of
    [src/research-hub-sync.js]: commander's own when it ends the process
    inside [parse]; otherwise 0 exactly when the document loop ran to
    its end with no document PUT rejected, or [createClient] threw. *)
Theorem rhs_exit_status_zero {W} (svc : Services W) parse penv w :
  match parse with
  | Ends usage errors code =>
      exit_status (outcome_of (Invocation.research_hub_sync svc parse penv w)) = code
  | Returns program =>
      exit_status (outcome_of (Invocation.research_hub_sync svc parse penv w)) = 0
      ↔ (reaches_publish (trace_of (Invocation.research_hub_sync svc parse penv w)) = true
         ∧ rejected_puts (trace_of (Invocation.research_hub_sync svc parse penv w)) = 0)
        ∨ (length (args program) = 1
           ∧ constructs (createClient svc (ResearchHubSync.SPACE_ID penv)
                           (ResearchHubSync.ENVIRONMENT program)
                           (ResearchHubSync.ACCESS_TOKEN penv)) = false)
  end.
Proof.
  unfold Invocation.research_hub_sync.
  destruct parse as [program|usage errors code]; simpl.
  - rewrite <- (posted_zero _ _ (rhs_main_posted svc program penv w)).
    apply rhs_main_exit_zero.
  - by destruct (commander_ends_readers (W:=W) usage errors code w) as (_ & _ & ->).
Qed.

Section ResearchHubSync2Counts.
Context {W : Type} (svc : Services W) (program : Program) (penv : process.env).

(** The same for the second script. *)
Lemma rhs2_put_docs_rejected items : ∀ fails w,
  ∃ w' t f,
    ResearchHubSync2.put_docs svc program penv items fails w = (w', t, Val f)
    ∧ f = fails + rejected_puts t
    ∧ posted_logs t = [].
Proof.
  induction items as [|item rest IH]; intros fails w.
  - exists w, [], fails. repeat split; simpl; auto with lia.
  - simpl. unfold_monad.
    destruct (on_request_put svc _ _ w) as [w1 [[]|e]]; cbn.
    + put_count_step IH fails w1.
    + destruct (ResearchHubSync2.VERBOSE program) eqn:Hv; cbn.
      * put_count_step IH (S fails) w1.
      * put_count_step IH (S fails) w1.
Qed.

Lemma rhs2_postItems_posted items w :
  ∃ p, posted_logs (trace_of (ResearchHubSync2.postItems svc program penv items w))
       = [(bool_decide
             (rejected_puts
                (trace_of (ResearchHubSync2.postItems svc program penv items w)) = 0),
           p,
           rejected_puts (trace_of (ResearchHubSync2.postItems svc program penv items w)))].
Proof.
  unfold ResearchHubSync2.postItems. unfold_monad.
  destruct (rhs2_put_docs_rejected items 0 w) as (w' & t & f & -> & Hf & Hp).
  simpl in Hf. unfold trace_of; cbn. eexists.
  unfold posted_logs, rejected_puts in *; cbn.
  rewrite ?omap_app, ?List.filter_app, ?length_app, Hp; cbn.
  rewrite ?Nat.add_0_r; subst; reflexivity.
Qed.

Lemma rhs2_doSync_posted w :
  posted_logs (trace_of (ResearchHubSync2.doSync svc program penv w)) = []
  ∨ ∃ p, posted_logs (trace_of (ResearchHubSync2.doSync svc program penv w))
         = [(bool_decide
               (rejected_puts (trace_of (ResearchHubSync2.doSync svc program penv w)) = 0),
             p, rejected_puts (trace_of (ResearchHubSync2.doSync svc program penv w)))].
Proof.
  unfold ResearchHubSync2.doSync, ResearchHubSync2.logTable. unfold_monad.
  destruct (on_getEntries svc _ _ _ w) as [w1 [page|e1]];
    destruct (ResearchHubSync2.SUMMARY program), (ResearchHubSync2.VERBOSE program);
    cbn; auto.
  all: case_bool_decide; cbn; auto.
  all: pose proof (rhs2_postItems_posted (items page) w1) as Hp;
    destruct (ResearchHubSync2.postItems svc program penv (items page) w1)
      as [[w2 t2] o2].
  all: unfold trace_of, posted_logs, rejected_puts in *; cbn in *; auto.
Qed.

Lemma rhs2_main_posted w :
  posted_logs (trace_of (ResearchHubSync2.main svc program penv w)) = []
  ∨ ∃ p, posted_logs (trace_of (ResearchHubSync2.main svc program penv w))
         = [(bool_decide
               (rejected_puts (trace_of (ResearchHubSync2.main svc program penv w)) = 0),
             p, rejected_puts (trace_of (ResearchHubSync2.main svc program penv w)))].
Proof.
  unfold ResearchHubSync2.main, ResearchHubSync2.sync, ResearchHubSync2.try_block.
  unfold_monad.
  case_bool_decide; cbn; auto.
  destruct (createClient svc _ _ _); cbn;
    [destruct (ResearchHubSync2.VERBOSE program); auto|].
  destruct (on_request_get svc _ w) as [w1 [body|e1]]; cbn;
    [|destruct (ResearchHubSync2.VERBOSE program); auto].
  destruct (truthy body); cbn; auto.
  pose proof (rhs2_doSync_posted w1) as Hp.
  destruct (ResearchHubSync2.doSync svc program penv w1) as [[w2 t2] [f|e|c]].
  all: unfold trace_of, posted_logs, rejected_puts in *; cbn in *.
  all: rewrite ?omap_app, ?List.filter_app, ?length_app, ?app_nil_r; cbn.
  all: rewrite ?app_nil_r, ?Nat.add_0_r; try done.
  all: destruct (ResearchHubSync2.VERBOSE program); cbn;
    rewrite ?omap_app, ?List.filter_app, ?length_app, ?app_nil_r; cbn;
    rewrite ?app_nil_r, ?Nat.add_0_r; done.
Qed.
End ResearchHubSync2Counts.

(** X16.  The exit status of an invocation of the second script of
    [src/research-hub-sync.js]: commander's own when it ends the process
    inside [parse]; otherwise 0 exactly when the document loop ran to
    its end with no document PUT rejected, or [createClient] threw. *)
Theorem rhs2_exit_status_zero {W} (svc : Services W) parse penv w :
  match parse with
  | Ends usage errors code =>
      exit_status (outcome_of (Invocation.research_hub_sync2 svc parse penv w)) = code
  | Returns program =>
      exit_status (outcome_of (Invocation.research_hub_sync2 svc parse penv w)) = 0
      ↔ (reaches_publish (trace_of (Invocation.research_hub_sync2 svc parse penv w)) = true
         ∧ rejected_puts (trace_of (Invocation.research_hub_sync2 svc parse penv w)) = 0)
        ∨ (length (args program) = 1
           ∧ constructs (createClient svc (ResearchHubSync2.SPACE_ID penv)
                           (ResearchHubSync2.ENVIRONMENT program)
                           (ResearchHubSync2.ACCESS_TOKEN penv)) = false)
  end.
Proof.
  unfold Invocation.research_hub_sync2.
  destruct parse as [program|usage errors code]; simpl.
  - rewrite <- (posted_zero _ _ (rhs2_main_posted svc program penv w)).
    apply rhs2_main_exit_zero.
  - by destruct (commander_ends_readers (W:=W) usage errors code w) as (_ & _ & ->).
Qed.

(** X9 on [research-hub-sync articles] with the index create refused. *)
Lemma quiet_run_prints_no_error_witness :
  error_logs (trace_of (Invocation.canonical Sample.create_refused (Returns Sample.articles)
                          Sample.penv tt)) = [].
Proof.
  apply (quiet_run_prints_no_error Sample.create_refused Sample.penv
           (Returns Sample.articles) tt).
  reflexivity.
Defined.
